(** * The navigation bar and wallet widget of [navigation.tsx]

    A shallow embedding of the [Navigation] component: the pure helpers
    ([shortenAddress], the link projection of the navigation list, the
    chain-id parsing), and the event-driven wallet session controller,
    whose asynchronous functions are embedded as resumable processes run
    by a small model of the browser's task queue. *)

From Stdlib Require Import String Ascii List ZArith Lia Bool Arith.
From Stdlib Require Import DecimalString.
Import ListNotations.
Open Scope string_scope.

(** ** JavaScript strings and numbers *)

Module Js.

(** [String.prototype.substring(start, end)]: both indices are clamped to
    [0, length], a missing [end] is the length, and the two are swapped
    when [start > end]. *)
Definition clamp (len : nat) (i : Z) : nat :=
  Z.to_nat (Z.min (Z.max i 0%Z) (Z.of_nat len)).

Definition substring (s : string) (start : Z) (stop : option Z) : string :=
  let len := String.length s in
  let finalStart := clamp len start in
  let finalEnd := match stop with None => len | Some e => clamp len e end in
  let from := Nat.min finalStart finalEnd in
  let to := Nat.max finalStart finalEnd in
  String.substring from (to - from) s.

(** A JavaScript Number, as far as the component meets one: NaN, an
    integer that is a double, or an infinity. *)
Inductive number : Type :=
| NaN
| Num (z : Z)
| Inf (negative : bool).

Definition MAX_SAFE_INTEGER : Z := (2 ^ 53 - 1)%Z.

(** The double nearest to a natural number [m], ties to the even
    significand: [m] itself below [2^53], else [m] rounded to its 53
    leading bits. *)
Definition nearestDouble (m : Z) : Z :=
  let e := Z.log2 m in
  if (e <? 53)%Z then m
  else
    let shift := (e - 52)%Z in
    let q := Z.shiftr m shift in
    let r := (m - Z.shiftl q shift)%Z in
    let half := Z.shiftl 1 (shift - 1) in
    let up := (half <? r)%Z || ((r =? half)%Z && Z.odd q) in
    Z.shiftl (if up then q + 1 else q)%Z shift.

(** The Number value of a mathematical integer: [Number(bigint)], and
    the last step of [parseInt].  What rounds to [2^1024] or beyond is
    an infinity. *)
Definition ofInteger (z : Z) : number :=
  let m := nearestDouble (Z.abs z) in
  if (2 ^ 1024 <=? m)%Z then Inf (z <? 0)%Z else Num (Z.sgn z * m)%Z.
Arguments ofInteger : simpl never.

(** The decimal digits of an integer, with its sign. *)
Definition decimalOf (z : Z) : string := NilZero.string_of_int (Z.to_int z).

(** The multiple of [10 ^ (n - k)] nearest to [z] among those the
    double [z] is the nearest double of, if there is one: the [k]
    digits that stand for [z], with their zeros. *)
Definition shortCandidate (z : Z) (n k : nat) : option Z :=
  let p := (10 ^ Z.of_nat (n - k))%Z in
  let lo := (z / p * p)%Z in
  let hi := (lo + p)%Z in
  match (nearestDouble lo =? z)%Z, (nearestDouble hi =? z)%Z with
  | true, true =>
      Some (if (z - lo <? hi - z)%Z then lo
            else if (hi - z <? z - lo)%Z then hi
            else if Z.even (z / p) then lo else hi)
  | true, false => Some lo
  | false, true => Some hi
  | false, false => None
  end.

(** The fewest digits first. *)
Fixpoint shortestDigits (fuel : nat) (z : Z) (n k : nat) : Z :=
  match fuel with
  | O => z
  | S f =>
      match shortCandidate z n k with
      | Some v => v
      | None => shortestDigits f z n (S k)
      end
  end.

Fixpoint dropTrailingZeros (s : string) : string :=
  match s with
  | EmptyString => EmptyString
  | String c rest =>
      match dropTrailingZeros rest with
      | EmptyString => if Ascii.eqb c "0" then EmptyString else String c EmptyString
      | r => String c r
      end
  end.

(** A natural number beyond the safe integers, printed as [toString]
    does: the digits that identify the double and zeros up to 21
    digits, exponent notation from there. *)
Definition largeToString (z : Z) : string :=
  let n := String.length (decimalOf z) in
  let v := shortestDigits n z n 1 in
  let digits := decimalOf v in
  if (String.length digits <=? 21)%nat then digits
  else
    let exponent := decimalOf (Z.of_nat (String.length digits - 1)) in
    match dropTrailingZeros digits with
    | String d EmptyString => String d ("e+" ++ exponent)
    | String d more => String d ("." ++ more ++ "e+" ++ exponent)
    | EmptyString => digits
    end.

(** [Number.prototype.toString()] as used by a template literal. *)
Definition numberToString (n : number) : string :=
  match n with
  | NaN => "NaN"
  | Inf negative => if negative then "-Infinity" else "Infinity"
  | Num z =>
      if (Z.abs z <=? MAX_SAFE_INTEGER)%Z then decimalOf z
      else (if (z <? 0)%Z then "-" else "") ++ largeToString (Z.abs z)
  end.

(** White space skipped by [parseInt] (code units below 256). *)
Definition isWhiteSpace (c : ascii) : bool :=
  let n := nat_of_ascii c in
  ((9 <=? n)%nat && (n <=? 13)%nat) || (n =? 32)%nat || (n =? 160)%nat.

Fixpoint trimStart (s : string) : string :=
  match s with
  | String c rest => if isWhiteSpace c then trimStart rest else s
  | EmptyString => s
  end.

(** Value of a code unit as a digit: 0-9, then letters of either case
    for 10..35. *)
Definition digitValue (c : ascii) : option Z :=
  let n := Z.of_nat (nat_of_ascii c) in
  if (48 <=? n)%Z && (n <=? 57)%Z then Some (n - 48)%Z
  else if (97 <=? n)%Z && (n <=? 122)%Z then Some (n - 87)%Z
  else if (65 <=? n)%Z && (n <=? 90)%Z then Some (n - 55)%Z
  else None.

Definition radixDigit (R : Z) (c : ascii) : option Z :=
  match digitValue c with
  | Some d => if (d <? R)%Z then Some d else None
  | None => None
  end.

(** The longest prefix of radix-[R] digits, accumulated from the left;
    [None] while no digit has been read. *)
Fixpoint parseDigits (R : Z) (s : string) (acc : option Z) : option Z :=
  match s with
  | String c rest =>
      match radixDigit R c with
      | Some d =>
          parseDigits R rest
            (Some (match acc with Some a => (a * R + d)%Z | None => d end))
      | None => acc
      end
  | EmptyString => acc
  end.

Definition stripSign (s : string) : Z * string :=
  match s with
  | String "-" rest => ((-1)%Z, rest)
  | String "+" rest => (1%Z, rest)
  | _ => (1%Z, s)
  end.

Definition stripHexPrefix (s : string) : string :=
  match s with
  | String "0" (String "x" rest) => rest
  | String "0" (String "X" rest) => rest
  | _ => s
  end.

(** [parseInt(string, radix)] for an integer radix: the integer the
    digits denote, as a Number.  (For the radix 16 of the component the
    standard asks for the exact integer, rounded to a Number; for some
    other radices it allows an approximation past 20 significant
    digits, where engines round the exact value, as here.) *)
Definition parseInt (s : string) (radix : Z) : number :=
  let (sign, s1) := stripSign (trimStart s) in
  if (radix =? 0)%Z || ((2 <=? radix)%Z && (radix <=? 36)%Z) then
    let R := if (radix =? 0)%Z then 10%Z else radix in
    let stripPrefix := (radix =? 0)%Z || (radix =? 16)%Z in
    let hex := stripPrefix &&
               match s1 with
               | String "0" (String "x" _) | String "0" (String "X" _) => true
               | _ => false
               end in
    let R := if hex then 16%Z else R in
    let s2 := if hex then stripHexPrefix s1 else s1 in
    match parseDigits R s2 None with
    | Some m => ofInteger (sign * m)
    | None => NaN
    end
  else NaN.

(** Truthiness of a [string | null] value: [null] and the empty string
    are falsy. *)
Definition truthy (v : option string) : bool :=
  match v with
  | Some s => negb (String.eqb s "")
  | None => false
  end.

End Js.

(** ** [shortenAddress] *)

Definition shortenAddress (address : string) : string :=
  Js.substring address 0%Z (Some 4%Z) ++ "..." ++
  Js.substring address (Z.of_nat (String.length address) - 4)%Z None.

(** ** The navigation links *)

(** [NavigationData] of [@/types/types]: the two fields the component
    reads. *)
Record NavigationData : Type := { path : string; label : string }.

(** What the component computes for one link: its key, its [href], its
    text and the [color] of its style (every other style entry is a
    constant). *)
Record NavLink : Type :=
  { linkKey : string; href : string; color : string; linkText : string }.

(** The [color] entry of [sx]: the conditional first, then the spread
    of [destination === "/" && { color: "primary.main" }], which
    overwrites it when it applies. *)
Definition linkColor (currentPath destination : string) : string :=
  let c := if String.eqb currentPath destination then "" else "white" in
  if String.eqb destination "/" then "primary.main" else c.

Definition renderLink (currentPath : string) (n : NavigationData) : NavLink :=
  {| linkKey := label n;
     href := path n;
     color := linkColor currentPath (path n);
     linkText := label n |}.

Definition renderNavigation (navigations : list NavigationData)
    (currentPath : string) : list NavLink :=
  map (renderLink currentPath) navigations.

(** A navigation list of the shape of [navigation.data]. *)
Definition sampleNavigations : list NavigationData :=
  [ {| path := "/"; label := "Home" |};
    {| path := "/about"; label := "About" |};
    {| path := "/team"; label := "Team" |} ].

(** The treatment of the current entry: the link keeps its own colour
    instead of receiving ["white"]. *)
Definition markedCurrent (l : NavLink) : bool := String.eqb (color l) "".

(** ** The wallet session: data *)

(** A value caught by [catch]: an [Error] with its message, or anything
    else that was thrown. *)
Inductive JsError : Type :=
| ErrorObj (message : string)
| Thrown.

(** How a promise settles. *)
Inductive Result (A : Type) : Type :=
| Resolved (a : A)
| Rejected (e : JsError).
Arguments Resolved {A} a.
Arguments Rejected {A} e.

(** [NetworkInfo] of [@/types/types]. *)
Record NetworkInfo : Type := { id : Js.number; name : string }.

(** The [Network] object of ethers: a bigint chain id and a name. *)
Record ProviderNetwork : Type := { chainId : Z; netName : string }.

(** The component's [useState] cells.  [anchorEl] holds the identity of
    the element the menu is anchored to. *)
Record State : Type :=
  { walletAddress : option string;
    error : option string;
    anchorEl : option nat;
    copied : bool;
    balance : option string;
    network : option NetworkInfo;
    loading : bool }.

Definition initialState : State :=
  {| walletAddress := None; error := None; anchorEl := None; copied := false;
     balance := None; network := None; loading := false |}.

(** One call of a state setter. *)
Inductive Setter : Type :=
| SetWalletAddress (v : option string)
| SetError (v : option string)
| SetAnchorEl (v : option nat)
| SetCopied (v : bool)
| SetBalance (v : option string)
| SetNetwork (v : option NetworkInfo)
| SetLoading (v : bool).

Definition applySetter (u : Setter) (s : State) : State :=
  match u with
  | SetWalletAddress v =>
      {| walletAddress := v; error := error s; anchorEl := anchorEl s;
         copied := copied s; balance := balance s; network := network s;
         loading := loading s |}
  | SetError v =>
      {| walletAddress := walletAddress s; error := v; anchorEl := anchorEl s;
         copied := copied s; balance := balance s; network := network s;
         loading := loading s |}
  | SetAnchorEl v =>
      {| walletAddress := walletAddress s; error := error s; anchorEl := v;
         copied := copied s; balance := balance s; network := network s;
         loading := loading s |}
  | SetCopied v =>
      {| walletAddress := walletAddress s; error := error s;
         anchorEl := anchorEl s; copied := v; balance := balance s;
         network := network s; loading := loading s |}
  | SetBalance v =>
      {| walletAddress := walletAddress s; error := error s;
         anchorEl := anchorEl s; copied := copied s; balance := v;
         network := network s; loading := loading s |}
  | SetNetwork v =>
      {| walletAddress := walletAddress s; error := error s;
         anchorEl := anchorEl s; copied := copied s; balance := balance s;
         network := v; loading := loading s |}
  | SetLoading v =>
      {| walletAddress := walletAddress s; error := error s;
         anchorEl := anchorEl s; copied := copied s; balance := balance s;
         network := network s; loading := v |}
  end.

(** ** The injected provider, [window.ethereum] *)

(** The listeners the component registers.  The one created by the
    effect closes over the [walletAddress] of its render; the two
    created by [connectWallet] close over nothing that changes. *)
Inductive AccountsListener : Type :=
| ConnAccountsChanged.

Inductive ChainListener : Type :=
| HandleChainChanged (renderedAddress : option string)
| ConnChainChanged.

Definition option_string_eqb (a b : option string) : bool :=
  match a, b with
  | Some x, Some y => String.eqb x y
  | None, None => true
  | _, _ => false
  end.

Definition chainListener_eqb (a b : ChainListener) : bool :=
  match a, b with
  | HandleChainChanged x, HandleChainChanged y => option_string_eqb x y
  | ConnChainChanged, ConnChainChanged => true
  | _, _ => false
  end.

(** The provider object, as far as the component touches it: the
    address it reports as selected and its two listener arrays, in
    registration order. *)
Record Ethereum : Type :=
  { selectedAddress : option string;
    accountsChanged : list AccountsListener;
    chainChanged : list ChainListener }.

Inductive EventName : Type := EvAccountsChanged | EvChainChanged.

Inductive EthOp : Type :=
| OnAccountsChanged (h : AccountsListener)
| OnChainChanged (h : ChainListener)
| RemoveListenerChainChanged (h : ChainListener)
| RemoveAllListeners (ev : EventName).

(** [removeListener] takes out the most recently added instance. *)
Fixpoint removeFirst (h : ChainListener) (l : list ChainListener) :
    list ChainListener :=
  match l with
  | [] => []
  | x :: rest => if chainListener_eqb x h then rest else x :: removeFirst h rest
  end.

Definition removeLatest (h : ChainListener) (l : list ChainListener) :
    list ChainListener :=
  rev (removeFirst h (rev l)).

Definition applyEthOp (op : EthOp) (e : Ethereum) : Ethereum :=
  match op with
  | OnAccountsChanged h =>
      {| selectedAddress := selectedAddress e;
         accountsChanged := accountsChanged e ++ [h];
         chainChanged := chainChanged e |}
  | OnChainChanged h =>
      {| selectedAddress := selectedAddress e;
         accountsChanged := accountsChanged e;
         chainChanged := chainChanged e ++ [h] |}
  | RemoveListenerChainChanged h =>
      {| selectedAddress := selectedAddress e;
         accountsChanged := accountsChanged e;
         chainChanged := removeLatest h (chainChanged e) |}
  | RemoveAllListeners EvAccountsChanged =>
      {| selectedAddress := selectedAddress e;
         accountsChanged := [];
         chainChanged := chainChanged e |}
  | RemoveAllListeners EvChainChanged =>
      {| selectedAddress := selectedAddress e;
         accountsChanged := accountsChanged e;
         chainChanged := [] |}
  end.

(** ** Processes

    The body of a function of the component, unfolded into the calls
    that matter: state setters, accesses to [window.ethereum], the three
    provider requests it awaits, a timer, and a call of an async
    function that is not awaited ([Fork]). *)
Inductive Proc : Type :=
| Done
| Throw (e : JsError)
| SetSt (u : Setter) (k : Proc)
| IfEthereum (present absent : Proc)
| ReadSelectedAddress (k : option string -> Proc)
| Eth (op : EthOp) (k : Proc)
| ClipboardWrite (text : string) (k : Proc)
| SetTimeout (callback : Proc) (delay : nat) (k : Proc)
| AwaitSend (k : Result (list string) -> Proc)
| AwaitGetBalance (address : string) (k : Result Z -> Proc)
| AwaitGetNetwork (k : Result ProviderNetwork -> Proc)
| Fork (call : Proc) (k : Proc).

(** [p; q] *)
Fixpoint seq (p q : Proc) : Proc :=
  match p with
  | Done => q
  | Throw e => Throw e
  | SetSt u k => SetSt u (seq k q)
  | IfEthereum a b => IfEthereum (seq a q) (seq b q)
  | ReadSelectedAddress k => ReadSelectedAddress (fun v => seq (k v) q)
  | Eth op k => Eth op (seq k q)
  | ClipboardWrite t k => ClipboardWrite t (seq k q)
  | SetTimeout cb d k => SetTimeout cb d (seq k q)
  | AwaitSend k => AwaitSend (fun r => seq (k r) q)
  | AwaitGetBalance a k => AwaitGetBalance a (fun r => seq (k r) q)
  | AwaitGetNetwork k => AwaitGetNetwork (fun r => seq (k r) q)
  | Fork c k => Fork c (seq k q)
  end.

(** [try { p } catch (err) { handler err }] *)
Fixpoint tryCatch (p : Proc) (handler : JsError -> Proc) : Proc :=
  match p with
  | Done => Done
  | Throw e => handler e
  | SetSt u k => SetSt u (tryCatch k handler)
  | IfEthereum a b => IfEthereum (tryCatch a handler) (tryCatch b handler)
  | ReadSelectedAddress k =>
      ReadSelectedAddress (fun v => tryCatch (k v) handler)
  | Eth op k => Eth op (tryCatch k handler)
  | ClipboardWrite t k => ClipboardWrite t (tryCatch k handler)
  | SetTimeout cb d k => SetTimeout cb d (tryCatch k handler)
  | AwaitSend k => AwaitSend (fun r => tryCatch (k r) handler)
  | AwaitGetBalance a k => AwaitGetBalance a (fun r => tryCatch (k r) handler)
  | AwaitGetNetwork k => AwaitGetNetwork (fun r => tryCatch (k r) handler)
  | Fork c k => Fork c (tryCatch k handler)
  end.

(** [try { p } finally { fin }]: [fin] runs on both exits, and a pending
    exception is thrown again after it. *)
Fixpoint tryFinally (p fin : Proc) : Proc :=
  match p with
  | Done => fin
  | Throw e => seq fin (Throw e)
  | SetSt u k => SetSt u (tryFinally k fin)
  | IfEthereum a b => IfEthereum (tryFinally a fin) (tryFinally b fin)
  | ReadSelectedAddress k => ReadSelectedAddress (fun v => tryFinally (k v) fin)
  | Eth op k => Eth op (tryFinally k fin)
  | ClipboardWrite t k => ClipboardWrite t (tryFinally k fin)
  | SetTimeout cb d k => SetTimeout cb d (tryFinally k fin)
  | AwaitSend k => AwaitSend (fun r => tryFinally (k r) fin)
  | AwaitGetBalance a k => AwaitGetBalance a (fun r => tryFinally (k r) fin)
  | AwaitGetNetwork k => AwaitGetNetwork (fun r => tryFinally (k r) fin)
  | Fork c k => Fork c (tryFinally k fin)
  end.

Definition tryCatchFinally (p : Proc) (handler : JsError -> Proc)
    (fin : Proc) : Proc :=
  tryFinally (tryCatch p handler) fin.

(** [await] of a provider request: the value, or the rejection thrown. *)
Definition orThrow {A : Type} (k : A -> Proc) (r : Result A) : Proc :=
  match r with
  | Resolved a => k a
  | Rejected e => Throw e
  end.

Definition awaitSend (k : list string -> Proc) : Proc :=
  AwaitSend (orThrow k).
Definition awaitGetBalance (address : string) (k : Z -> Proc) : Proc :=
  AwaitGetBalance address (orThrow k).
Definition awaitGetNetwork (k : ProviderNetwork -> Proc) : Proc :=
  AwaitGetNetwork (orThrow k).

(** [new ethers.BrowserProvider(window.ethereum)]: the constructor
    refuses a missing provider (ethers appends the argument to this
    message; the component never shows it). *)
Definition newBrowserProvider (k : Proc) : Proc :=
  IfEthereum k (Throw (ErrorObj "invalid EIP-1193 provider")).

(** [window.ethereum.on(...)]: a TypeError when the global is
    undefined. *)
Definition ethereumOn (op : EthOp) (k : Proc) : Proc :=
  IfEthereum (Eth op k)
    (Throw (ErrorObj "Cannot read properties of undefined (reading 'on')")).

(** ** [ethers.formatEther]

    The library's rendering of a wei amount with 18 decimals: integer
    part, a point, and the fraction without trailing zeros, of which one
    digit at least is kept. *)
Fixpoint trimTrailingZeros (s : string) : string :=
  match s with
  | EmptyString => EmptyString
  | String c rest =>
      match trimTrailingZeros rest with
      | EmptyString => if Ascii.eqb c "0" then EmptyString else String c EmptyString
      | r => String c r
      end
  end.

Fixpoint zeros (n : nat) : string :=
  match n with
  | O => EmptyString
  | S m => String "0" (zeros m)
  end.

Definition decimal (z : Z) : string := Js.decimalOf z.

Definition formatEther (wei : Z) : string :=
  let v := Z.abs wei in
  let whole := decimal (v / 10 ^ 18) in
  let digits := decimal (v mod 10 ^ 18) in
  let fraction := zeros (18 - String.length digits) ++ digits in
  let shown := match trimTrailingZeros fraction with
               | EmptyString => "0"
               | f => f
               end in
  (if (wei <? 0)%Z then "-" else "") ++ whole ++ "." ++ shown.

(** ** The functions of the component *)

Definition handleClose : Proc := SetSt (SetAnchorEl None) Done.

Definition fetchWalletData (address : string) : Proc :=
  tryCatchFinally
    (SetSt (SetLoading true)
    (newBrowserProvider
    (awaitGetBalance address (fun balance =>
     SetSt (SetBalance (Some (Js.substring (formatEther balance) 0 (Some 6%Z))))
    (awaitGetNetwork (fun network =>
     SetSt (SetNetwork (Some {| id := Js.ofInteger (chainId network);
                                name := netName network |}))
    (SetSt (SetError None)
     Done)))))))
    (fun err => SetSt (SetError (Some "Failed to load wallet data")) Done)
    (SetSt (SetLoading false) Done).

Definition handleDisconnect : Proc :=
  SetSt (SetWalletAddress None)
  (SetSt (SetBalance None)
  (SetSt (SetNetwork None)
  (seq handleClose
  (IfEthereum
     (Eth (RemoveAllListeners EvAccountsChanged)
     (Eth (RemoveAllListeners EvChainChanged)
      Done))
     Done)))).

(** The network a [chainChanged] listener synthesises. *)
Definition unknownNetwork (chainIdHex : string) : NetworkInfo :=
  let newChainId := Js.parseInt chainIdHex 16 in
  {| id := newChainId;
     name := "Unknown Network (" ++ Js.numberToString newChainId ++ ")" |}.

(** The arrow functions handed to [window.ethereum.on]. *)
Definition accountsListener (h : AccountsListener)
    (newAccounts : list string) : Proc :=
  match h with
  | ConnAccountsChanged =>
      match newAccounts with
      | first :: _ =>
          SetSt (SetWalletAddress (Some first))
          (Fork (fetchWalletData first)
           Done)
      | [] => handleDisconnect
      end
  end.

Definition chainListener (h : ChainListener) (chainIdHex : string) : Proc :=
  match h with
  | HandleChainChanged renderedAddress =>
      SetSt (SetNetwork (Some (unknownNetwork chainIdHex)))
      (match renderedAddress with
       | Some a =>
           if Js.truthy renderedAddress then Fork (fetchWalletData a) Done
           else Done
       | None => Done
       end)
  | ConnChainChanged =>
      SetSt (SetNetwork (Some (unknownNetwork chainIdHex))) Done
  end.

Definition connectWallet : Proc :=
  tryCatchFinally
    (IfEthereum
       (SetSt (SetLoading true)
       (newBrowserProvider
       (awaitSend (fun accounts =>
        match accounts with
        | first :: _ =>
            SetSt (SetWalletAddress (Some first))
            (seq (fetchWalletData first)
            (ethereumOn (OnAccountsChanged ConnAccountsChanged)
            (ethereumOn (OnChainChanged ConnChainChanged)
             Done)))
        | [] => Done
        end))))
       (Throw (ErrorObj "Please install MetaMask to continue")))
    (fun err =>
       SetSt (SetError (Some (match err with
                              | ErrorObj message => message
                              | Thrown => "Unknown error"
                              end))) Done)
    (SetSt (SetLoading false) Done).

(** The first effect, run once on mount. *)
Definition checkWalletConnection : Proc :=
  ReadSelectedAddress (fun selected =>
    match selected with
    | Some a =>
        if Js.truthy selected then
          SetSt (SetWalletAddress (Some a)) (seq (fetchWalletData a) Done)
        else Done
    | None => Done
    end).

(** The second effect, run for every render in which [walletAddress]
    differs from the previous one, and its cleanup. *)
Definition chainEffect (renderedAddress : option string) : Proc :=
  IfEthereum
    (Eth (OnChainChanged (HandleChainChanged renderedAddress)) Done)
    Done.

Definition chainEffectCleanup (renderedAddress : option string) : Proc :=
  IfEthereum
    (Eth (RemoveListenerChainChanged (HandleChainChanged renderedAddress)) Done)
    Done.

(** The click handlers; each closes over the [walletAddress] of the
    render it belongs to. *)
Definition handleClick (renderedAddress : option string) (target : nat) : Proc :=
  if Js.truthy renderedAddress then SetSt (SetAnchorEl (Some target)) Done
  else Fork connectWallet Done.

Definition copyToClipboard (renderedAddress : option string) : Proc :=
  match renderedAddress with
  | Some a =>
      if Js.truthy renderedAddress then
        ClipboardWrite a
        (SetSt (SetCopied true)
        (SetTimeout (SetSt (SetCopied false) Done) 2000
         Done))
      else Done
  | None => Done
  end.

(** ** The task queue

    A call that reached an [await] of a provider request waits in the
    pool with its continuation; everything between two awaits runs
    without interruption. *)
Inductive Suspended : Type :=
| WaitSend (k : Result (list string) -> Proc)
| WaitGetBalance (address : string) (k : Result Z -> Proc)
| WaitGetNetwork (k : Result ProviderNetwork -> Proc).

Record Config : Type :=
  { st : State;
    ethereum : option Ethereum;
    clipboard : option string;
    now : nat;
    timers : list (nat * Proc);
    pool : list Suspended;
    uncaught : list JsError }.

Definition withSt (c : Config) (s : State) : Config :=
  {| st := s; ethereum := ethereum c; clipboard := clipboard c; now := now c;
     timers := timers c; pool := pool c; uncaught := uncaught c |}.

Definition withEthereum (c : Config) (e : option Ethereum) : Config :=
  {| st := st c; ethereum := e; clipboard := clipboard c; now := now c;
     timers := timers c; pool := pool c; uncaught := uncaught c |}.

Definition withClipboard (c : Config) (t : option string) : Config :=
  {| st := st c; ethereum := ethereum c; clipboard := t; now := now c;
     timers := timers c; pool := pool c; uncaught := uncaught c |}.

Definition withClock (c : Config) (t : nat) (ts : list (nat * Proc)) : Config :=
  {| st := st c; ethereum := ethereum c; clipboard := clipboard c; now := t;
     timers := ts; pool := pool c; uncaught := uncaught c |}.

Definition withPool (c : Config) (p : list Suspended) : Config :=
  {| st := st c; ethereum := ethereum c; clipboard := clipboard c; now := now c;
     timers := timers c; pool := p; uncaught := uncaught c |}.

Definition withUncaught (c : Config) (u : list JsError) : Config :=
  {| st := st c; ethereum := ethereum c; clipboard := clipboard c; now := now c;
     timers := timers c; pool := pool c; uncaught := u |}.

Definition suspend (c : Config) (s : Suspended) : Config :=
  withPool c (pool c ++ [s]).

(** Run a process up to its next [await] or to its end.  A call that is
    not awaited runs up to its own first [await] and the caller goes
    on. *)
Fixpoint runSync (p : Proc) (c : Config) : Config :=
  match p with
  | Done => c
  | Throw e => withUncaught c (uncaught c ++ [e])
  | SetSt u k => runSync k (withSt c (applySetter u (st c)))
  | IfEthereum a b =>
      match ethereum c with
      | Some _ => runSync a c
      | None => runSync b c
      end
  | ReadSelectedAddress k =>
      runSync (k (match ethereum c with
                  | Some e => selectedAddress e
                  | None => None
                  end)) c
  | Eth op k => runSync k (withEthereum c (option_map (applyEthOp op) (ethereum c)))
  | ClipboardWrite t k => runSync k (withClipboard c (Some t))
  | SetTimeout cb d k =>
      runSync k (withClock c (now c) (timers c ++ [(now c + d, cb)]))
  | AwaitSend k => suspend c (WaitSend k)
  | AwaitGetBalance a k => suspend c (WaitGetBalance a k)
  | AwaitGetNetwork k => suspend c (WaitGetNetwork k)
  | Fork call k => runSync k (runSync call c)
  end.

(** The provider's answers during one scenario. *)
Record ProviderBehaviour : Type :=
  { requestAccounts : Result (list string);
    getBalance : string -> Result Z;
    getNetwork : Result ProviderNetwork }.

(** A suspended call goes on with the provider's answer. *)
Definition resumeWith (pb : ProviderBehaviour) (s : Suspended) (c : Config) :
    Config :=
  match s with
  | WaitSend k => runSync (k (requestAccounts pb)) c
  | WaitGetBalance a k => runSync (k (getBalance pb a)) c
  | WaitGetNetwork k => runSync (k (getNetwork pb)) c
  end.

(** Answer the waiting calls, oldest first, at most [fuel] times. *)
Fixpoint settle (fuel : nat) (pb : ProviderBehaviour) (c : Config) : Config :=
  match fuel with
  | O => c
  | S n =>
      match pool c with
      | [] => c
      | s :: rest => settle n pb (resumeWith pb s (withPool c rest))
      end
  end.

(** The provider emits an event: every listener registered at that
    moment is called, in registration order. *)
Definition emitAccountsChanged (newAccounts : list string) (c : Config) : Config :=
  match ethereum c with
  | Some e =>
      fold_left (fun c' h => runSync (accountsListener h newAccounts) c')
        (accountsChanged e) c
  | None => c
  end.

Definition emitChainChanged (chainIdHex : string) (c : Config) : Config :=
  match ethereum c with
  | Some e =>
      fold_left (fun c' h => runSync (chainListener h chainIdHex) c')
        (chainChanged e) c
  | None => c
  end.

(** Time passes: the timers that are due fire, in the order they were
    set (all delays are equal, so that is the order they are due). *)
Definition advance (dt : nat) (c : Config) : Config :=
  let t := now c + dt in
  let due := filter (fun x => fst x <=? t)%nat (timers c) in
  let later := filter (fun x => negb (fst x <=? t)%nat) (timers c) in
  fold_left (fun c' x => runSync (snd x) c') due (withClock c t later).

(** A freshly mounted component. *)
Definition mounted (e : option Ethereum) : Config :=
  {| st := initialState; ethereum := e; clipboard := None; now := 0;
     timers := []; pool := []; uncaught := [] |}.

(** ** Specification vocabulary *)

(** The position of a character in an alphabet. *)
Fixpoint indexIn (alphabet : string) (c : ascii) : option nat :=
  match alphabet with
  | EmptyString => None
  | String x rest =>
      if Ascii.eqb x c then Some 0
      else option_map S (indexIn rest c)
  end.

(** The value of a hexadecimal digit: its position among the sixteen
    digits, with the letters in either case. *)
Definition hexDigitValue (c : ascii) : option Z :=
  match indexIn "0123456789abcdef" c, indexIn "0123456789ABCDEF" c with
  | Some i, _ => Some (Z.of_nat i)
  | None, Some i => Some (Z.of_nat i)
  | None, None => None
  end.

(** The integer a string of hexadecimal digits denotes, positionally:
    the first digit weighs [16 ^ (number of digits after it)]. *)
Fixpoint hexValue (digits : string) : option Z :=
  match digits with
  | EmptyString => Some 0%Z
  | String c rest =>
      match hexDigitValue c, hexValue rest with
      | Some d, Some v => Some (d * 16 ^ Z.of_nat (String.length rest) + v)%Z
      | _, _ => None
      end
  end.

(** The session is empty: no address, no balance, no network. *)
Definition sessionEmpty (s : State) : Prop :=
  walletAddress s = None /\ balance s = None /\ network s = None.

(** What the menu shows for a balance in wei. *)
Definition displayBalance (wei : Z) : string :=
  Js.substring (formatEther wei) 0 (Some 6%Z).

(** Unfold one layer of the task queue and compute. *)
Ltac exec :=
  repeat (progress (unfold suspend, withSt, withPool, withEthereum,
                      withClipboard, withClock, withUncaught, resumeWith;
                    simpl)).

(** Take a configuration apart and compute with its parts. *)
Ltac open_config c :=
  destruct c as [? ? ? ? ? ? ?]; simpl in *; subst; exec.


(** The state a failed refresh leaves, from the state [s] it found or
    made. *)
Definition failedFrom (s : State) : State :=
  applySetter (SetLoading false)
    (applySetter (SetError (Some "Failed to load wallet data")) s).

(** ** Sample scenarios *)

(** A provider without listeners that reports no selected address. *)
Definition freshEthereum : Ethereum :=
  {| selectedAddress := None; accountsChanged := []; chainChanged := [] |}.

(** A session connected to ["0xABCD00000000000000000000000000000000EF01"]
    on the main network. *)
Definition connectedState : State :=
  {| walletAddress := Some "0xABCD00000000000000000000000000000000EF01";
     error := None; anchorEl := None; copied := false;
     balance := Some "2.5";
     network := Some {| id := Js.Num 1; name := "mainnet" |};
     loading := false |}.

Definition connectedConfig : Config :=
  {| st := connectedState; ethereum := Some freshEthereum; clipboard := None;
     now := 0; timers := []; pool := []; uncaught := [] |}.

(** The user closes the wallet's prompt without picking an account. *)
Definition grantsNothing : ProviderBehaviour :=
  {| requestAccounts := Resolved [];
     getBalance := fun _ => Resolved 0%Z;
     getNetwork := Resolved {| chainId := 1; netName := "mainnet" |} |}.

(** One account holding 1 ether on the main network. *)
Definition grantsOne : ProviderBehaviour :=
  {| requestAccounts := Resolved ["0xABCD00000000000000000000000000000000EF01"];
     getBalance := fun _ => Resolved (10 ^ 18)%Z;
     getNetwork := Resolved {| chainId := 1; netName := "mainnet" |} |}.

(** The balance request is refused. *)
Definition balanceFails : ProviderBehaviour :=
  {| requestAccounts := Resolved ["0xABCD00000000000000000000000000000000EF01"];
     getBalance := fun _ => Rejected (ErrorObj "could not coalesce error");
     getNetwork := Resolved {| chainId := 1; netName := "mainnet" |} |}.

(** The balance arrives, the network request is refused. *)
Definition networkFails : ProviderBehaviour :=
  {| requestAccounts := Resolved ["0xABCD00000000000000000000000000000000EF01"];
     getBalance := fun _ => Resolved (10 ^ 18)%Z;
     getNetwork := Rejected (ErrorObj "network changed") |}.

(** Either of the two requests of a refresh for [address] is refused. *)
Definition refreshFails (pb : ProviderBehaviour) (address : string) : Prop :=
  (exists err, getBalance pb address = Rejected err) \/
  (exists err, getNetwork pb = Rejected err).


(** [n] calls of [connectWallet], one after the other, each run to its
    end against the provider's answers of that time. *)
Fixpoint connectTimes (fuel : nat) (answers : list ProviderBehaviour)
    (c : Config) : Config :=
  match answers with
  | [] => c
  | pb :: rest => connectTimes fuel rest (settle fuel pb (runSync connectWallet c))
  end.

(** The provider after [removeAllListeners] for both events. *)
Definition withoutListeners (e : Ethereum) : Ethereum :=
  {| selectedAddress := selectedAddress e;
     accountsChanged := [];
     chainChanged := [] |}.

(** A session with a wallet connected through [connectWallet]. *)
Definition afterConnect : Config :=
  settle 3 grantsOne (runSync connectWallet (mounted (Some freshEthereum))).

(** The same session once React has rendered it and run the chain
    effect. *)
Definition afterConnectRendered : Config :=
  runSync (chainEffect (walletAddress (st afterConnect))) afterConnect.

(** The user picks "Copy Address" in a render that shows [address]. *)
Definition copyAddress (address : string) (c : Config) : Config :=
  runSync (copyToClipboard (Some address)) c.

(** ** The loading discipline

    [clearsLoading held p]: [p] may start where "loading is off or a
    call is waiting" is known to hold ([held = true]) or not, and on
    every path it reaches its next [await], or its end, with that
    re-established.  Turning the flag on loses it, turning it off and
    suspending give it back. *)
Fixpoint clearsLoading (held : bool) (p : Proc) : Prop :=
  match p with
  | Done => held = true
  | Throw _ => held = true
  | SetSt (SetLoading v) k => clearsLoading (negb v) k
  | SetSt _ k => clearsLoading held k
  | IfEthereum a b => clearsLoading held a /\ clearsLoading held b
  | ReadSelectedAddress k => forall v, clearsLoading held (k v)
  | Eth _ k => clearsLoading held k
  | ClipboardWrite _ k => clearsLoading held k
  | SetTimeout cb _ k => clearsLoading true cb /\ clearsLoading held k
  | AwaitSend k => forall r, clearsLoading false (k r)
  | AwaitGetBalance _ k => forall r, clearsLoading false (k r)
  | AwaitGetNetwork k => forall r, clearsLoading false (k r)
  | Fork call k => clearsLoading held call /\ clearsLoading true k
  end.

(** A waiting call whose continuation, resumed with any answer, clears
    the flag it may have left on. *)
Definition resumable (s : Suspended) : Prop :=
  match s with
  | WaitSend k => forall r, clearsLoading false (k r)
  | WaitGetBalance _ k => forall r, clearsLoading false (k r)
  | WaitGetNetwork k => forall r, clearsLoading false (k r)
  end.

(** The loading flag is on only while a call waits for the provider. *)
Definition loadingOnlyInFlight (c : Config) : Prop :=
  loading (st c) = true -> pool c <> [].

(** What holds between two tasks: besides the above, every waiting
    call and every pending timer keeps to the discipline. *)
Definition betweenTasks (c : Config) : Prop :=
  loadingOnlyInFlight c /\
  Forall resumable (pool c) /\
  Forall (fun x => clearsLoading true (snd x)) (timers c).

(** ** The life of the component *)

(** What the page, the user or React can start at any moment; the
    closures may stem from any render. *)
Inductive Operation : Proc -> Prop :=
| OpCheckWalletConnection : Operation checkWalletConnection
| OpConnectWallet : Operation connectWallet
| OpFetchWalletData (a : string) : Operation (fetchWalletData a)
| OpHandleClick (a : option string) (target : nat) :
    Operation (handleClick a target)
| OpHandleClose : Operation handleClose
| OpCopyToClipboard (a : option string) : Operation (copyToClipboard a)
| OpHandleDisconnect : Operation handleDisconnect
| OpChainEffect (a : option string) : Operation (chainEffect a)
| OpChainEffectCleanup (a : option string) : Operation (chainEffectCleanup a).

Inductive step : Config -> Config -> Prop :=
| StepStart (p : Proc) (c : Config) :
    Operation p -> step c (runSync p c)
| StepAccountsChanged (newAccounts : list string) (c : Config) :
    step c (emitAccountsChanged newAccounts c)
| StepChainChanged (chainIdHex : string) (c : Config) :
    step c (emitChainChanged chainIdHex c)
| StepResume (before after : list Suspended) (s : Suspended)
    (pb : ProviderBehaviour) (c : Config) :
    pool c = (before ++ s :: after)%list ->
    step c (resumeWith pb s (withPool c (before ++ after)))
| StepTime (dt : nat) (c : Config) :
    step c (advance dt c)
| StepProvider (e : option Ethereum) (c : Config) :
    step c (withEthereum c e).

Inductive reachable (e : option Ethereum) : Config -> Prop :=
| ReachMounted : reachable e (mounted e)
| ReachStep (c c' : Config) : reachable e c -> step c c' -> reachable e c'.

(** Case analysis over the answers a process may receive. *)
Ltac discipline :=
  repeat (cbn; intros;
          match goal with
          | |- _ /\ _ => split
          | r : Result _ |- _ => destruct r
          | |- context [match ?l with nil => _ | cons _ _ => _ end] =>
              destruct l
          | |- context [match ?a with Some _ => _ | None => _ end] =>
              destruct a
          | |- context [if ?b then _ else _] => destruct b
          | |- _ = _ => reflexivity
          end).

(** ** Further vocabulary *)

(** The links of a rendered navigation that carry the mark of the
    current entry. *)
Definition markedLinks (links : list NavLink) : list NavLink :=
  filter markedCurrent links.

(** The entries of a navigation list that lead to [destination]. *)
Definition entriesTo (destination : string)
    (navigations : list NavigationData) : list NavigationData :=
  filter (fun n => String.eqb (path n) destination) navigations.

(** A chain id [parseInt] can make nothing of: the empty string, or one
    that starts with a character that is no white space, no sign and no
    hexadecimal digit. *)
Definition unreadableChainId (chainIdHex : string) : Prop :=
  chainIdHex = "" \/
  exists (c : ascii) (rest : string),
    chainIdHex = String c rest /\
    Js.isWhiteSpace c = false /\
    c <> "-"%char /\ c <> "+"%char /\
    hexDigitValue c = None.

(** Every case of a character, by its bits. *)
Ltac each_character c :=
  let b0 := fresh "b" in let b1 := fresh "b" in let b2 := fresh "b" in
  let b3 := fresh "b" in let b4 := fresh "b" in let b5 := fresh "b" in
  let b6 := fresh "b" in let b7 := fresh "b" in
  destruct c as [b0 b1 b2 b3 b4 b5 b6 b7];
  destruct b0, b1, b2, b3, b4, b5, b6, b7.


(** [Boolean(anchorEl)], the [open] of the menu. *)
Definition menuOpen (s : State) : bool :=
  match anchorEl s with
  | Some _ => true
  | None => false
  end.

(** The provider with the two listeners of [connectWallet] appended. *)
Definition withConnectListeners (e : Ethereum) : Ethereum :=
  applyEthOp (OnChainChanged ConnChainChanged)
    (applyEthOp (OnAccountsChanged ConnAccountsChanged) e).

(** ** The component while it runs

    React renders again after a task that set the state.  The chain
    effect has the dependency array [[walletAddress]]: when the address
    of the new render differs from the one of the render before, the
    cleanup of the old effect runs and then the effect of the new
    render; otherwise neither runs. *)
Definition rerender (previous : option string) (c : Config) : Config :=
  if option_string_eqb previous (walletAddress (st c)) then c
  else runSync (chainEffect (walletAddress (st c)))
         (runSync (chainEffectCleanup previous) c).

(** A task of the component, followed by the render it causes. *)
Definition rendered (task : Config -> Config) (c : Config) : Config :=
  rerender (walletAddress (st c)) (task c).

(** Answer the waiting calls, oldest first, at most [fuel] times, with
    the render after each answer. *)
Fixpoint settleRendered (fuel : nat) (pb : ProviderBehaviour) (c : Config) :
    Config :=
  match fuel with
  | O => c
  | S n =>
      match pool c with
      | [] => c
      | s :: rest =>
          settleRendered n pb
            (rendered (fun c' => resumeWith pb s (withPool c' rest)) c)
      end
  end.

Arguments rerender : simpl never.
Arguments rendered : simpl never.
Arguments settleRendered : simpl never.

(** What the renders from the address [previous] to the address
    [current] do to the provider. *)
Definition effectSwapped (previous current : option string) (e : Ethereum) :
    Ethereum :=
  if option_string_eqb previous current then e
  else applyEthOp (OnChainChanged (HandleChainChanged current))
         (applyEthOp (RemoveListenerChainChanged (HandleChainChanged previous))
            e).

(** The message [connectWallet] shows for what it caught. *)
Definition connectionMessage (err : JsError) : string :=
  match err with
  | ErrorObj message => message
  | Thrown => "Unknown error"
  end.

(** The wallet asks, the user refuses. *)
Definition userRejects : ProviderBehaviour :=
  {| requestAccounts := Rejected (ErrorObj "User rejected the request.");
     getBalance := fun _ => Resolved 0%Z;
     getNetwork := Resolved {| chainId := 1; netName := "mainnet" |} |}.

(** One account on a chain whose id, [2^53 + 1], is no double. *)
Definition grantsOneFarChain : ProviderBehaviour :=
  {| requestAccounts := Resolved ["0xABCD00000000000000000000000000000000EF01"];
     getBalance := fun _ => Resolved (10 ^ 18)%Z;
     getNetwork := Resolved {| chainId := 9007199254740993;
                               netName := "devnet" |} |}.

(** A waiting call that asked for the balance of [address]. *)
Definition awaitsBalanceOf (address : string) (s : Suspended) : Prop :=
  match s with
  | WaitGetBalance a _ => a = address
  | _ => False
  end.

(** The state after an [accountsChanged] listener adopted [first] and
    started the refresh. *)
Definition adopting (first : string) (s : State) : State :=
  applySetter (SetLoading true) (applySetter (SetWalletAddress (Some first)) s).

(** Only listeners of [connectWallet] are registered for [chainChanged]. *)
Definition onlyConnectChainListeners (e : Ethereum) : Prop :=
  Forall (fun h => h = ConnChainChanged) (chainChanged e).


(** [exec] in a hypothesis. *)
Ltac exec_in H :=
  repeat (progress (unfold suspend, withSt, withPool, withEthereum,
                      withClipboard, withClock, withUncaught, resumeWith in H;
                    simpl in H)).

(** Compute the configuration [inner] before what is run on top of it. *)
Ltac run_first inner :=
  let c1 := fresh "c" in
  let Hc1 := fresh "Hc" in
  remember inner as c1 eqn:Hc1; exec_in Hc1; subst c1.


(** ** What the widget shows *)

(** The account summary and its menu, as far as they depend on the
    state. *)
Record AccountView : Type :=
  { summaryBalance : string;
    summaryNetwork : string;
    avatarText : string;
    menuIsOpen : bool;
    menuNetwork : string;
    menuBalance : string;
    copyLabel : string;
    shownAddress : string }.

Inductive WalletView : Type :=
| Spinner
| Account (v : AccountView)
| ConnectButton.

(** A [string | null | undefined] child of an element: nothing when it
    is missing. *)
Definition childText (v : option string) : string :=
  match v with
  | Some s => s
  | None => ""
  end.

(** [loading ? spinner : walletAddress ? summary and menu : button] *)
Definition renderWallet (s : State) : WalletView :=
  if loading s then Spinner
  else
    match walletAddress s with
    | Some a =>
        if Js.truthy (walletAddress s) then
          Account
            {| summaryBalance := childText (balance s) ++ " ETH";
               summaryNetwork := childText (option_map name (network s));
               avatarText := Js.substring a 2 (Some 4%Z);
               menuIsOpen := menuOpen s;
               menuNetwork := childText (option_map name (network s));
               menuBalance := childText (balance s) ++ " ETH";
               copyLabel := if copied s then "Copied!" else "Copy Address";
               shownAddress := shortenAddress a |}
        else ConnectButton
    | None => ConnectButton
    end.

(** [error && <Box>error</Box>] *)
Definition renderError (s : State) : option string :=
  if Js.truthy (error s) then error s else None.

(** ** The copied discipline *)

(** The callback of the timer of [copyToClipboard]. *)
Definition clearCopied : Proc := SetSt (SetCopied false) Done.

(** [keepsCopiedTimed held p]: [p] may start where "the indicator is
    off or a timer is pending" is known to hold ([held = true]) or not;
    it sets only timers that clear the indicator within 2000 ms, and
    reaches every [await] and its end with that re-established. *)
Fixpoint keepsCopiedTimed (held : bool) (p : Proc) : Prop :=
  match p with
  | Done => held = true
  | Throw _ => held = true
  | SetSt (SetCopied v) k => keepsCopiedTimed (negb v) k
  | SetSt _ k => keepsCopiedTimed held k
  | IfEthereum a b => keepsCopiedTimed held a /\ keepsCopiedTimed held b
  | ReadSelectedAddress k => forall v, keepsCopiedTimed held (k v)
  | Eth _ k => keepsCopiedTimed held k
  | ClipboardWrite _ k => keepsCopiedTimed held k
  | SetTimeout cb d k =>
      cb = clearCopied /\ d <= 2000 /\ keepsCopiedTimed true k
  | AwaitSend k => held = true /\ forall r, keepsCopiedTimed true (k r)
  | AwaitGetBalance _ k => held = true /\ forall r, keepsCopiedTimed true (k r)
  | AwaitGetNetwork k => held = true /\ forall r, keepsCopiedTimed true (k r)
  | Fork call k => keepsCopiedTimed held call /\ keepsCopiedTimed true k
  end.

Definition resumesCopiedTimed (s : Suspended) : Prop :=
  match s with
  | WaitSend k => forall r, keepsCopiedTimed true (k r)
  | WaitGetBalance _ k => forall r, keepsCopiedTimed true (k r)
  | WaitGetNetwork k => forall r, keepsCopiedTimed true (k r)
  end.

(** The indicator is on only while a timer that clears it is pending. *)
Definition copiedOnlyWhileTimed (c : Config) : Prop :=
  copied (st c) = true -> timers c <> [].

(** A pending timer of the component: it clears the indicator, within
    2000 ms from [t]. *)
Definition clearsWithin (t : nat) (x : nat * Proc) : Prop :=
  snd x = clearCopied /\ fst x <= t + 2000.

Definition copiedTimed (c : Config) : Prop :=
  copiedOnlyWhileTimed c /\
  Forall (clearsWithin (now c)) (timers c) /\
  Forall resumesCopiedTimed (pool c).
(** * Properties *)

(** ** Strings *)

Section StringFacts.

Lemma length_app (a b : string) :
  String.length (a ++ b) = String.length a + String.length b.
Proof.
  induction a as [|c a IH]; simpl; [reflexivity|].
  now rewrite IH.
Qed.

Lemma app_assoc_s (a b c : string) : (a ++ b) ++ c = a ++ b ++ c.
Proof.
  induction a as [|x a IH]; simpl; [reflexivity|].
  now rewrite IH.
Qed.

Lemma substring_head (a b : string) :
  String.substring 0 (String.length a) (a ++ b) = a.
Proof.
  induction a as [|c a IH]; simpl.
  - destruct b; reflexivity.
  - now rewrite IH.
Qed.

Lemma substring_whole (s : string) :
  String.substring 0 (String.length s) s = s.
Proof.
  induction s as [|c s IH]; simpl; [reflexivity|].
  now rewrite IH.
Qed.

Lemma substring_tail (a b : string) (n : nat) :
  String.substring (String.length a) n (a ++ b) = String.substring 0 n b.
Proof.
  induction a as [|c a IH]; simpl; [reflexivity|].
  exact IH.
Qed.

(** Every string splits after any [n] of its characters. *)
Lemma split_at (n : nat) :
  forall s, n <= String.length s ->
  exists a b, s = a ++ b /\ String.length a = n.
Proof.
  induction n as [|n IH]; intros s Hn.
  - exists EmptyString, s. split; reflexivity.
  - destruct s as [|c s]; simpl in Hn; [lia|].
    destruct (IH s) as (a & b & -> & Ha); [lia|].
    exists (String c a), b. simpl. split; [reflexivity|lia].
Qed.

End StringFacts.

(** ** C8: the shortened address *)

(** C8. [shortenAddress "0x1234567890abcdef"] is ["0x12...cdef"], and
    for every address of at least 8 characters the result is the first
    four characters of the address, three dots, and its last four
    characters. *)
Theorem shortenAddress_first4_dots_last4 :
  shortenAddress "0x1234567890abcdef" = "0x12...cdef" /\
  forall address : string,
    8 <= String.length address ->
    exists first4 middle last4 : string,
      address = first4 ++ middle ++ last4 /\
      String.length first4 = 4 /\
      String.length last4 = 4 /\
      shortenAddress address = first4 ++ "..." ++ last4.
Proof.
  split; [reflexivity|].
  intros address Hlen.
  destruct (split_at 4 address) as (first4 & rest & Haddr & Hfirst); [lia|].
  assert (Hrest : 4 <= String.length rest).
  { rewrite Haddr, length_app in Hlen. lia. }
  destruct (split_at (String.length rest - 4) rest)
    as (middle & last4 & Hr & Hmid); [lia|].
  assert (Hlast : String.length last4 = 4).
  { rewrite Hr, length_app in Hrest.
    assert (String.length rest = String.length middle + String.length last4)
      by (rewrite Hr at 1; apply length_app).
    lia. }
  exists first4, middle, last4.
  subst rest. split; [exact Haddr|]. split; [exact Hfirst|].
  split; [exact Hlast|].
  unfold shortenAddress, Js.substring, Js.clamp.
  set (len := String.length address).
  assert (Hl : len = 4 + String.length middle + 4).
  { unfold len. rewrite Haddr, !length_app. lia. }
  replace (Z.to_nat (Z.min (Z.max 0 0) (Z.of_nat len))) with 0 by lia.
  replace (Z.to_nat (Z.min (Z.max 4 0) (Z.of_nat len))) with 4 by lia.
  replace (Z.to_nat (Z.min (Z.max (Z.of_nat len - 4) 0) (Z.of_nat len)))
    with (len - 4) by lia.
  replace (Nat.min 0 4) with 0 by reflexivity.
  replace (Nat.max 0 4 - 0) with 4 by reflexivity.
  replace (Nat.min (len - 4) len) with (len - 4) by lia.
  replace (Nat.max (len - 4) len - (len - 4)) with 4 by lia.
  f_equal.
  - rewrite Haddr, <- Hfirst. apply substring_head.
  - f_equal.
    replace (len - 4) with (String.length (first4 ++ middle))
      by (rewrite length_app; lia).
    rewrite Haddr, <- app_assoc_s, substring_tail, <- Hlast.
    apply substring_whole.
Qed.

Lemma shortenAddress_first4_dots_last4_witness :
  8 <= String.length "0xAbCd00112233445566778899aAbBcCdDeEfF0011" /\
  exists first4 middle last4 : string,
    "0xAbCd00112233445566778899aAbBcCdDeEfF0011" = first4 ++ middle ++ last4 /\
    String.length first4 = 4 /\
    String.length last4 = 4 /\
    shortenAddress "0xAbCd00112233445566778899aAbBcCdDeEfF0011"
      = first4 ++ "..." ++ last4.
Proof.
  split; [simpl; lia|].
  apply (proj2 shortenAddress_first4_dots_last4); simpl; lia.
Defined.

(** ** C1: the current navigation entry *)

Section NavigationFacts.

Lemma linkColor_root (currentPath : string) :
  linkColor currentPath "/" = "primary.main".
Proof. reflexivity. Qed.

Lemma linkColor_other (currentPath destination : string) :
  destination <> "/" ->
  linkColor currentPath destination
  = if String.eqb currentPath destination then "" else "white".
Proof.
  intros Hd. unfold linkColor.
  destruct (String.eqb_spec destination "/") as [E|_]; [contradiction|].
  reflexivity.
Qed.

Lemma rendered_link (navigations : list NavigationData) (currentPath : string)
    (l : NavLink) :
  In l (renderNavigation navigations currentPath) ->
  exists n, In n navigations /\ l = renderLink currentPath n.
Proof.
  unfold renderNavigation. rewrite in_map_iff.
  intros (n & <- & Hn). now exists n.
Qed.

End NavigationFacts.

(** C1, as stated, fails: no mark that can be read off the rendered
    link is carried by exactly the entries whose destination is the
    current path.  The entry with destination ["/"] is rendered the
    same on the page ["/"], where it is current, and on the page
    ["/about"], where it is not. *)
Lemma navigation_root_rendered_alike :
  ~ exists mark : NavLink -> bool,
      forall (navigations : list NavigationData) (currentPath : string)
             (n : NavigationData),
        In n navigations ->
        (mark (renderLink currentPath n) = true <-> path n = currentPath).
Proof.
  intros (mark & H).
  set (home := {| path := "/"; label := "Home" |}).
  assert (Hin : In home [home]) by (left; reflexivity).
  pose proof (H [home] "/" home Hin) as Hcur.
  pose proof (H [home] "/about" home Hin) as Hnot.
  change (renderLink "/about" home) with (renderLink "/" home) in Hnot.
  assert (Hm : mark (renderLink "/" home) = true) by (apply Hcur; reflexivity).
  apply Hnot in Hm. discriminate Hm.
Qed.

(** C1, amended.  The rendered navigation has one link per entry, in
    order, with the entry's destination and label.  A link whose
    destination is not ["/"] is marked current exactly when its
    destination is the current path, and is white otherwise; the link to
    ["/"] has the colour ["primary.main"] on every page. *)
Theorem navigation_marks_current_except_root :
  forall (navigations : list NavigationData) (currentPath : string),
    map href (renderNavigation navigations currentPath) = map path navigations /\
    map linkText (renderNavigation navigations currentPath)
      = map label navigations /\
    forall l : NavLink,
      In l (renderNavigation navigations currentPath) ->
      (href l <> "/" ->
         (markedCurrent l = true <-> href l = currentPath) /\
         (href l <> currentPath -> color l = "white")) /\
      (href l = "/" -> color l = "primary.main").
Proof.
  intros navigations currentPath.
  split; [|split].
  - unfold renderNavigation. rewrite map_map. reflexivity.
  - unfold renderNavigation. rewrite map_map. reflexivity.
  - intros l Hl.
    destruct (rendered_link _ _ _ Hl) as (n & _ & ->).
    unfold markedCurrent. simpl. split.
    + intros Hroot. rewrite (linkColor_other _ _ Hroot).
      destruct (String.eqb_spec currentPath (path n)) as [E|NE].
      * split; [|congruence]. split; [now intros _|reflexivity].
      * split; [|reflexivity].
        split; [discriminate|]. intros E. now elim NE.
    + intros ->. apply linkColor_root.
Qed.

Lemma navigation_marks_current_except_root_witness :
  In (renderLink "/about" {| path := "/about"; label := "About" |})
     (renderNavigation sampleNavigations "/about") /\
  href (renderLink "/about" {| path := "/about"; label := "About" |}) <> "/" /\
  (markedCurrent (renderLink "/about" {| path := "/about"; label := "About" |})
     = true
   <-> href (renderLink "/about" {| path := "/about"; label := "About" |})
       = "/about").
Proof.
  assert (Hin : In (renderLink "/about" {| path := "/about"; label := "About" |})
                   (renderNavigation sampleNavigations "/about"))
    by (right; left; reflexivity).
  assert (Hroot : href (renderLink "/about"
                          {| path := "/about"; label := "About" |}) <> "/")
    by discriminate.
  split; [exact Hin|]. split; [exact Hroot|].
  exact (proj1 (proj1 (proj2 (proj2
           (navigation_marks_current_except_root sampleNavigations "/about"))
           _ Hin) Hroot)).
Defined.

(** ** Hexadecimal chain ids *)

Section ParseIntFacts.

Lemma radixDigit_16 (c : ascii) : Js.radixDigit 16 c = hexDigitValue c.
Proof.
  destruct c as [b0 b1 b2 b3 b4 b5 b6 b7].
  destruct b0, b1, b2, b3, b4, b5, b6, b7; reflexivity.
Qed.

Lemma parseDigits_hex (digits : string) :
  forall (v a : Z),
    hexValue digits = Some v ->
    Js.parseDigits 16 digits (Some a)
    = Some (a * 16 ^ Z.of_nat (String.length digits) + v)%Z.
Proof.
  induction digits as [|c rest IH]; intros v a Hv; simpl in Hv.
  - injection Hv as <-. simpl. f_equal. lia.
  - simpl Js.parseDigits. rewrite radixDigit_16.
    destruct (hexDigitValue c) as [d|]; [|discriminate].
    destruct (hexValue rest) as [w|] eqn:Hw; [|discriminate].
    injection Hv as <-.
    rewrite (IH w (a * 16 + d)%Z eq_refl). f_equal.
    change (String.length (String c rest)) with (S (String.length rest)).
    rewrite Nat2Z.inj_succ, Z.pow_succ_r by lia. ring.
Qed.

Lemma parseDigits_hex_start (digits : string) (v : Z) :
  digits <> EmptyString ->
  hexValue digits = Some v ->
  Js.parseDigits 16 digits None = Some v.
Proof.
  destruct digits as [|c rest]; [congruence|]. intros _ Hv.
  simpl in Hv. simpl Js.parseDigits. rewrite radixDigit_16.
  destruct (hexDigitValue c) as [d|]; [|discriminate].
  destruct (hexValue rest) as [w|] eqn:Hw; [|discriminate].
  injection Hv as <-.
  apply (parseDigits_hex rest w d Hw).
Qed.

Lemma hexDigitValue_nonneg (c : ascii) (d : Z) :
  hexDigitValue c = Some d -> (0 <= d)%Z.
Proof.
  unfold hexDigitValue.
  destruct (indexIn "0123456789abcdef" c) as [i|].
  - intros H. injection H as <-. lia.
  - destruct (indexIn "0123456789ABCDEF" c) as [i|]; [|discriminate].
    intros H. injection H as <-. lia.
Qed.

Lemma hexValue_nonneg (digits : string) :
  forall v : Z, hexValue digits = Some v -> (0 <= v)%Z.
Proof.
  induction digits as [|c rest IH]; intros v Hv; simpl in Hv.
  - injection Hv as <-. lia.
  - destruct (hexDigitValue c) as [d|] eqn:Hd; [|discriminate].
    destruct (hexValue rest) as [w|]; [|discriminate].
    injection Hv as <-.
    pose proof (hexDigitValue_nonneg c d Hd). pose proof (IH w eq_refl).
    assert (0 <= 16 ^ Z.of_nat (String.length rest))%Z
      by (apply Z.pow_nonneg; lia).
    nia.
Qed.

(** A safe integer is its own Number. *)
Lemma ofInteger_safe (v : Z) :
  (0 <= v <= Js.MAX_SAFE_INTEGER)%Z -> Js.ofInteger v = Js.Num v.
Proof.
  intros [Hlo Hhi]. unfold Js.MAX_SAFE_INTEGER in Hhi.
  unfold Js.ofInteger, Js.nearestDouble.
  rewrite (Z.abs_eq v Hlo).
  assert (Hlog : (Z.log2 v < 53)%Z).
  { destruct (Z.eq_dec v 0) as [->|Hnz]; [reflexivity|].
    apply Z.log2_lt_pow2; lia. }
  apply Z.ltb_lt in Hlog. rewrite Hlog.
  assert (Hbig : (2 ^ 53 < 2 ^ 1024)%Z) by (apply Z.pow_lt_mono_r; lia).
  destruct (Z.leb_spec (2 ^ 1024) v) as [Habs|_]; [lia|].
  f_equal. destruct v as [|p|p]; [reflexivity|reflexivity|lia].
Qed.

Lemma numberToString_safe (v : Z) :
  (0 <= v <= Js.MAX_SAFE_INTEGER)%Z ->
  Js.numberToString (Js.Num v) = decimal v.
Proof.
  intros [Hlo Hhi]. unfold Js.numberToString.
  rewrite (Z.abs_eq v Hlo).
  destruct (Z.leb_spec v Js.MAX_SAFE_INTEGER) as [_|Habs]; [reflexivity|lia].
Qed.

(** [parseInt] of a ["0x"]-prefixed string of hexadecimal digits is the
    Number of the integer they denote. *)
Lemma parseInt_hex_rounded (digits : string) (v : Z) :
  digits <> EmptyString ->
  hexValue digits = Some v ->
  Js.parseInt ("0x" ++ digits) 16 = Js.ofInteger v.
Proof.
  intros Hne Hv. unfold Js.parseInt. simpl.
  rewrite (parseDigits_hex_start digits v Hne Hv).
  f_equal. destruct v; reflexivity.
Qed.

Lemma parseInt_hex (digits : string) (v : Z) :
  digits <> EmptyString ->
  hexValue digits = Some v ->
  (v <= Js.MAX_SAFE_INTEGER)%Z ->
  Js.parseInt ("0x" ++ digits) 16 = Js.Num v.
Proof.
  intros Hne Hv Hsafe.
  rewrite (parseInt_hex_rounded digits v Hne Hv).
  apply ofInteger_safe. split; [exact (hexValue_nonneg digits v Hv)|exact Hsafe].
Qed.

End ParseIntFacts.

(** ** Running a call to its end *)

Section Calls.

Lemma settle_idle (fuel : nat) (pb : ProviderBehaviour) (c : Config) :
  pool c = [] -> settle fuel pb c = c.
Proof.
  destruct fuel; simpl; [reflexivity|]. now intros ->.
Qed.

End Calls.

(** ** C5: connecting without a provider *)

(** C5. When [window.ethereum] is missing, every call of
    [connectWallet] ends at once with the message "Please install
    MetaMask to continue" as the visible error; no request is made, the
    address, the balance and the network keep their values, and an
    empty session stays empty. *)
Theorem connectWallet_provider_missing :
  forall c : Config,
    ethereum c = None ->
    runSync connectWallet c
    = withSt c (applySetter (SetLoading false)
                 (applySetter
                    (SetError (Some "Please install MetaMask to continue"))
                    (st c))) /\
    error (st (runSync connectWallet c))
    = Some "Please install MetaMask to continue" /\
    walletAddress (st (runSync connectWallet c)) = walletAddress (st c) /\
    balance (st (runSync connectWallet c)) = balance (st c) /\
    network (st (runSync connectWallet c)) = network (st c) /\
    pool (runSync connectWallet c) = pool c /\
    (sessionEmpty (st c) -> sessionEmpty (st (runSync connectWallet c))).
Proof.
  intros c Hnone. unfold sessionEmpty.
  open_config c. repeat split; tauto.
Qed.

Lemma connectWallet_provider_missing_witness :
  ethereum (mounted None) = None /\
  error (st (runSync connectWallet (mounted None)))
  = Some "Please install MetaMask to continue" /\
  sessionEmpty (st (runSync connectWallet (mounted None))).
Proof.
  split; [reflexivity|].
  destruct (connectWallet_provider_missing (mounted None) eq_refl)
    as (_ & Herr & _ & _ & _ & _ & Hempty).
  split; [exact Herr|].
  apply Hempty. repeat split; reflexivity.
Defined.

(** ** C10: the provider grants no account *)

(** C10. When the account request resolves with an empty list,
    [connectWallet] ends without an exception and leaves everything as
    it was except for the cleared loading flag: the session and the
    error message are untouched and no listener is registered. *)
Theorem connectWallet_no_accounts :
  forall (fuel : nat) (pb : ProviderBehaviour) (c : Config) (e : Ethereum),
    1 <= fuel ->
    ethereum c = Some e ->
    pool c = [] ->
    requestAccounts pb = Resolved [] ->
    settle fuel pb (runSync connectWallet c)
    = withSt c (applySetter (SetLoading false) (st c)) /\
    (sessionEmpty (st c) ->
     sessionEmpty (st (settle fuel pb (runSync connectWallet c)))) /\
    error (st (settle fuel pb (runSync connectWallet c))) = error (st c) /\
    ethereum (settle fuel pb (runSync connectWallet c)) = Some e /\
    uncaught (settle fuel pb (runSync connectWallet c)) = uncaught c /\
    loading (st (settle fuel pb (runSync connectWallet c))) = false.
Proof.
  intros fuel pb c e Hfuel He Hpool Hacc.
  destruct fuel as [|fuel]; [lia|].
  assert (Hrun : settle (S fuel) pb (runSync connectWallet c)
                 = withSt c (applySetter (SetLoading false) (st c))).
  { open_config c. rewrite Hacc. exec. apply settle_idle. reflexivity. }
  rewrite Hrun. unfold sessionEmpty.
  split; [reflexivity|]. destruct c; simpl in *. repeat split; tauto.
Qed.

Lemma connectWallet_no_accounts_witness :
  settle 1 grantsNothing (runSync connectWallet (mounted (Some freshEthereum)))
  = mounted (Some freshEthereum) /\
  sessionEmpty
    (st (settle 1 grantsNothing
           (runSync connectWallet (mounted (Some freshEthereum))))).
Proof.
  destruct (connectWallet_no_accounts 1 grantsNothing
              (mounted (Some freshEthereum)) freshEthereum
              (le_n 1) eq_refl eq_refl eq_refl)
    as (Hrun & Hempty & _).
  split; [exact Hrun|].
  apply Hempty. repeat split; reflexivity.
Defined.

(** ** C3: a refresh that fails *)

Section FetchOutcomes.

Variables (fuel : nat) (pb : ProviderBehaviour) (c : Config) (a : string).
Hypothesis Hidle : pool c = [].

Lemma fetch_no_provider :
  ethereum c = None ->
  settle fuel pb (runSync (fetchWalletData a) c)
  = withSt c (failedFrom (st c)).
Proof using Hidle.
  intros Hnone. unfold failedFrom. open_config c.
  apply settle_idle. reflexivity.
Qed.

Lemma fetch_balance_rejected (e : Ethereum) (err : JsError) :
  ethereum c = Some e ->
  getBalance pb a = Rejected err ->
  settle (1 + fuel) pb (runSync (fetchWalletData a) c)
  = withSt c (failedFrom (st c)).
Proof using Hidle.
  intros He Hb. unfold failedFrom. open_config c.
  rewrite Hb. exec. apply settle_idle. reflexivity.
Qed.

Lemma fetch_network_rejected (e : Ethereum) (w : Z) (err : JsError) :
  ethereum c = Some e ->
  getBalance pb a = Resolved w ->
  getNetwork pb = Rejected err ->
  settle (2 + fuel) pb (runSync (fetchWalletData a) c)
  = withSt c (failedFrom
                (applySetter (SetBalance (Some (displayBalance w))) (st c))).
Proof using Hidle.
  intros He Hb Hn. unfold failedFrom. open_config c.
  rewrite Hb. exec. rewrite Hn. exec. apply settle_idle. reflexivity.
Qed.

Lemma fetch_resolved (e : Ethereum) (w : Z) (n : ProviderNetwork) :
  ethereum c = Some e ->
  getBalance pb a = Resolved w ->
  getNetwork pb = Resolved n ->
  settle (2 + fuel) pb (runSync (fetchWalletData a) c)
  = withSt c
      {| walletAddress := walletAddress (st c);
         error := None;
         anchorEl := anchorEl (st c);
         copied := copied (st c);
         balance := Some (displayBalance w);
         network := Some {| id := Js.ofInteger (chainId n);
                            name := netName n |};
         loading := false |}.
Proof using Hidle.
  intros He Hb Hn. open_config c.
  rewrite Hb. exec. rewrite Hn. exec. apply settle_idle. reflexivity.
Qed.

End FetchOutcomes.

(** C3, as stated, fails: when the balance arrives and the network
    request is then refused, the refresh ends with the error set and
    with the new balance in place of the previous one.  Here the session
    showed "2.5" and shows "1.0" after the failed refresh. *)
Lemma failed_refresh_may_keep_new_balance :
  ~ forall (fuel : nat) (pb : ProviderBehaviour) (c : Config) (a : string),
      2 <= fuel ->
      pool c = [] ->
      walletAddress (st c) = Some a ->
      refreshFails pb a ->
      error (st (settle fuel pb (runSync (fetchWalletData a) c))) <> None /\
      walletAddress (st (settle fuel pb (runSync (fetchWalletData a) c)))
      = walletAddress (st c) /\
      balance (st (settle fuel pb (runSync (fetchWalletData a) c)))
      = balance (st c) /\
      network (st (settle fuel pb (runSync (fetchWalletData a) c)))
      = network (st c).
Proof.
  intros H.
  assert (Hfails : refreshFails networkFails
                     "0xABCD00000000000000000000000000000000EF01")
    by (right; eexists; reflexivity).
  destruct (H 2 networkFails connectedConfig
              "0xABCD00000000000000000000000000000000EF01"
              (le_n 2) eq_refl eq_refl Hfails) as (_ & _ & Hbal & _).
  vm_compute in Hbal. discriminate Hbal.
Qed.

(** C3, amended.  A refresh that fails sets the error message, clears
    the loading flag and keeps the address and the network.  The
    balance keeps its previous value when the provider is missing or the
    balance request is refused; when the balance arrives and the network
    request is refused, the balance shown is the new one. *)
Theorem failed_refresh_outcome :
  forall (fuel : nat) (pb : ProviderBehaviour) (c : Config) (a : string),
    2 <= fuel ->
    pool c = [] ->
    (ethereum c = None \/ (exists err, getBalance pb a = Rejected err) ->
     settle fuel pb (runSync (fetchWalletData a) c)
     = withSt c (failedFrom (st c)) /\
     error (st (settle fuel pb (runSync (fetchWalletData a) c)))
     = Some "Failed to load wallet data" /\
     walletAddress (st (settle fuel pb (runSync (fetchWalletData a) c)))
     = walletAddress (st c) /\
     balance (st (settle fuel pb (runSync (fetchWalletData a) c)))
     = balance (st c) /\
     network (st (settle fuel pb (runSync (fetchWalletData a) c)))
     = network (st c)) /\
    (forall (e : Ethereum) (w : Z) (err : JsError),
       ethereum c = Some e ->
       getBalance pb a = Resolved w ->
       getNetwork pb = Rejected err ->
       error (st (settle fuel pb (runSync (fetchWalletData a) c)))
       = Some "Failed to load wallet data" /\
       walletAddress (st (settle fuel pb (runSync (fetchWalletData a) c)))
       = walletAddress (st c) /\
       balance (st (settle fuel pb (runSync (fetchWalletData a) c)))
       = Some (displayBalance w) /\
       network (st (settle fuel pb (runSync (fetchWalletData a) c)))
       = network (st c) /\
       loading (st (settle fuel pb (runSync (fetchWalletData a) c))) = false).
Proof.
  intros fuel pb c a Hfuel Hidle.
  destruct fuel as [|[|fuel]]; try lia.
  split.
  - intros Hcase.
    assert (Hrun : settle (S (S fuel)) pb (runSync (fetchWalletData a) c)
                   = withSt c (failedFrom (st c))).
    { destruct (ethereum c) as [e|] eqn:He.
      - destruct Hcase as [Hnone|(err & Hb)]; [discriminate|].
        exact (fetch_balance_rejected (S fuel) pb c a Hidle e err He Hb).
      - exact (fetch_no_provider (S (S fuel)) pb c a Hidle He). }
    rewrite Hrun. destruct c; repeat split; reflexivity.
  - intros e w err He Hb Hn.
    change (S (S fuel)) with (2 + fuel).
    rewrite (fetch_network_rejected fuel pb c a Hidle e w err He Hb Hn).
    destruct c; repeat split; reflexivity.
Qed.

Lemma failed_refresh_outcome_witness :
  2 <= 2 /\ pool connectedConfig = [] /\
  error (st (settle 2 balanceFails
               (runSync (fetchWalletData
                           "0xABCD00000000000000000000000000000000EF01")
                  connectedConfig)))
  = Some "Failed to load wallet data" /\
  balance (st (settle 2 balanceFails
                 (runSync (fetchWalletData
                             "0xABCD00000000000000000000000000000000EF01")
                    connectedConfig)))
  = Some "2.5" /\
  balance (st (settle 2 networkFails
                 (runSync (fetchWalletData
                             "0xABCD00000000000000000000000000000000EF01")
                    connectedConfig)))
  = Some "1.0".
Proof.
  split; [lia|]. split; [reflexivity|].
  destruct (failed_refresh_outcome 2 balanceFails connectedConfig
              "0xABCD00000000000000000000000000000000EF01" (le_n 2) eq_refl)
    as (Hfirst & _).
  destruct (Hfirst (or_intror (ex_intro _ _ eq_refl)))
    as (_ & Herr & _ & Hbal & _).
  destruct (failed_refresh_outcome 2 networkFails connectedConfig
              "0xABCD00000000000000000000000000000000EF01" (le_n 2) eq_refl)
    as (_ & Hsecond).
  destruct (Hsecond freshEthereum (10 ^ 18)%Z (ErrorObj "network changed")
              eq_refl eq_refl eq_refl) as (_ & _ & Hnew & _).
  split; [exact Herr|]. split; [exact Hbal|exact Hnew].
Defined.

(** ** C6: disconnecting *)

Section Disconnect.

Lemma handleDisconnect_run (c : Config) :
  runSync handleDisconnect c
  = withEthereum
      (withSt c {| walletAddress := None;
                   error := error (st c);
                   anchorEl := None;
                   copied := copied (st c);
                   balance := None;
                   network := None;
                   loading := loading (st c) |})
      (option_map withoutListeners (ethereum c)).
Proof.
  destruct c as [s [e|] cb t ts pl un]; reflexivity.
Qed.

Lemma handleDisconnect_twice (c : Config) :
  runSync handleDisconnect (runSync handleDisconnect c)
  = runSync handleDisconnect c.
Proof.
  rewrite !handleDisconnect_run.
  destruct c as [s [e|] cb t ts pl un]; reflexivity.
Qed.

Lemma emptied_by_every_listener (l : list AccountsListener) (c : Config) :
  fold_left (fun c' h => runSync (accountsListener h []) c') l
    (runSync handleDisconnect c)
  = runSync handleDisconnect c.
Proof.
  induction l as [|h l IH]; cbn [fold_left]; [reflexivity|].
  destruct h.
  change (accountsListener ConnAccountsChanged []) with handleDisconnect.
  rewrite handleDisconnect_twice. exact IH.
Qed.

End Disconnect.

(** C6. A listener called with an empty account list does what
    [handleDisconnect] does, and so does the event as a whole when
    listeners are registered.  [handleDisconnect] clears the address,
    the balance and the network in one uninterrupted run, whatever the
    session held, and removes the listeners of both events. *)
Theorem accountsChanged_empty_disconnects :
  forall c : Config,
    (forall h : AccountsListener,
       runSync (accountsListener h []) c = runSync handleDisconnect c) /\
    (forall e : Ethereum,
       ethereum c = Some e ->
       accountsChanged e <> [] ->
       emitAccountsChanged [] c = runSync handleDisconnect c) /\
    sessionEmpty (st (runSync handleDisconnect c)) /\
    pool (runSync handleDisconnect c) = pool c /\
    ethereum (runSync handleDisconnect c)
    = option_map withoutListeners (ethereum c).
Proof.
  intros c. split; [|split; [|split; [|split]]].
  - intros []. reflexivity.
  - intros e He Hne. unfold emitAccountsChanged. rewrite He.
    destruct (accountsChanged e) as [|h l]; [congruence|].
    destruct h. cbn [fold_left].
    change (accountsListener ConnAccountsChanged []) with handleDisconnect.
    apply emptied_by_every_listener.
  - rewrite handleDisconnect_run. repeat split; reflexivity.
  - rewrite handleDisconnect_run. reflexivity.
  - rewrite handleDisconnect_run. reflexivity.
Qed.

Lemma accountsChanged_empty_disconnects_witness :
  walletAddress (st afterConnect)
  = Some "0xABCD00000000000000000000000000000000EF01" /\
  ethereum afterConnect
  = Some {| selectedAddress := None;
            accountsChanged := [ConnAccountsChanged];
            chainChanged := [ConnChainChanged] |} /\
  emitAccountsChanged [] afterConnect = runSync handleDisconnect afterConnect /\
  sessionEmpty (st (emitAccountsChanged [] afterConnect)).
Proof.
  assert (He : ethereum afterConnect
               = Some {| selectedAddress := None;
                         accountsChanged := [ConnAccountsChanged];
                         chainChanged := [ConnChainChanged] |})
    by reflexivity.
  assert (Hne : accountsChanged
                  {| selectedAddress := None;
                     accountsChanged := [ConnAccountsChanged];
                     chainChanged := [ConnChainChanged] |} <> [])
    by discriminate.
  destruct (accountsChanged_empty_disconnects afterConnect)
    as (_ & Hemit & Hempty & _).
  split; [reflexivity|]. split; [exact He|].
  split; [exact (Hemit _ He Hne)|].
  rewrite (Hemit _ He Hne). exact Hempty.
Defined.

(** ** C7: listeners pile up *)

Section ConnectOutcomes.



End ConnectOutcomes.



(** ** C2: the copied indicator *)

Section Copied.

Lemma due_shift (t0 d dt : nat) :
  (t0 + d <=? t0 + dt)%nat = (d <=? dt)%nat.
Proof.
  destruct (Nat.leb_spec (t0 + d) (t0 + dt)), (Nat.leb_spec d dt);
    try reflexivity; lia.
Qed.

Lemma copyAddress_run (a : string) (c : Config) :
  a <> "" ->
  copyAddress a c
  = withClock
      (withSt (withClipboard c (Some a)) (applySetter (SetCopied true) (st c)))
      (now c)
      (timers c ++ [(now c + 2000, SetSt (SetCopied false) Done)]).
Proof.
  intros Ha. destruct a as [|ch a]; [congruence|]. reflexivity.
Qed.

Lemma copied_after_one (a : string) (c : Config) (dt : nat) :
  a <> "" -> timers c = [] ->
  copied (st (advance dt (copyAddress a c))) = (dt <? 2000)%nat.
Proof.
  intros Ha Ht. pose proof (copyAddress_run a) as Hrun.
  remember 2000 as delay eqn:Hdelay in *. clear Hdelay.
  rewrite (Hrun c Ha).
  destruct c as [s eth cb t ts pl un]. cbn [timers] in Ht. subst ts.
  unfold advance. exec. rewrite !due_shift.
  destruct (Nat.leb_spec delay dt), (Nat.ltb_spec dt delay);
    try lia; reflexivity.
Qed.

Lemma copied_after_two (a : string) (c : Config) (d1 d2 : nat) :
  a <> "" -> timers c = [] -> d1 < 2000 ->
  copied (st (advance d2 (copyAddress a (advance d1 (copyAddress a c)))))
  = (d1 + d2 <? 2000)%nat.
Proof.
  intros Ha Ht Hd1. pose proof (copyAddress_run a) as Hrun.
  remember 2000 as delay eqn:Hdelay in *. clear Hdelay.
  rewrite (Hrun c Ha).
  destruct c as [s eth cb t ts pl un]. cbn [timers] in Ht. subst ts.
  unfold advance at 2. exec. rewrite !due_shift.
  destruct (Nat.leb_spec delay d1) as [Hle|_]; [lia|]. exec.
  rewrite (Hrun _ Ha).
  unfold advance. exec.
  replace (t + d1 + delay <=? t + d1 + d2)%nat with (delay <=? d2)%nat
    by (symmetry; apply due_shift).
  replace (t + delay <=? t + d1 + d2)%nat with (delay <=? d1 + d2)%nat
    by (rewrite <- Nat.add_assoc; symmetry; apply due_shift).
  destruct (Nat.leb_spec delay d2), (Nat.leb_spec delay (d1 + d2)),
           (Nat.ltb_spec (d1 + d2) delay); try lia; reflexivity.
Qed.

End Copied.

(** C2, as stated, fails: a second copy does not supersede the timer
    of the first.  With copies at 0 ms and at 1000 ms, the indicator is
    off at 2000 ms, only 1000 ms after the most recent copy. *)
Lemma second_copy_does_not_reset_timer :
  ~ forall (c : Config) (a : string) (d1 d2 : nat),
      a <> "" ->
      timers c = [] ->
      d1 < 2000 ->
      d2 < 2000 ->
      copied (st (advance d2 (copyAddress a (advance d1 (copyAddress a c)))))
      = true.
Proof.
  intros H.
  assert (Ha : "0xABCD00000000000000000000000000000000EF01" <> "")
    by discriminate.
  pose proof (H connectedConfig "0xABCD00000000000000000000000000000000EF01"
                1000 1000 Ha eq_refl) as Hc.
  rewrite (copied_after_two _ connectedConfig 1000 1000 Ha eq_refl) in Hc
    by lia.
  assert (Hlt : 1000 < 2000) by lia.
  specialize (Hc Hlt Hlt).
  destruct (Nat.ltb_spec (1000 + 1000) 2000) as [Habs|_]; [lia|].
  discriminate Hc.
Qed.

(** C2, amended.  With an address to copy, [copyToClipboard] writes it
    to the clipboard, sets the copied indicator and starts a timer of
    2000 ms of its own.  After a single copy the indicator is on for
    less than 2000 ms and off from 2000 ms on.  A second copy within
    that window cancels nothing: the indicator goes off 2000 ms after
    the first copy. *)
Theorem copied_indicator_timers_stack :
  forall (c : Config) (a : string),
    a <> "" ->
    timers c = [] ->
    copied (st (copyAddress a c)) = true /\
    clipboard (copyAddress a c) = Some a /\
    (forall dt : nat,
       copied (st (advance dt (copyAddress a c))) = (dt <? 2000)%nat) /\
    (forall d1 d2 : nat,
       d1 < 2000 ->
       copied (st (advance d2 (copyAddress a (advance d1 (copyAddress a c)))))
       = (d1 + d2 <? 2000)%nat).
Proof.
  intros c a Ha Ht. split; [|split; [|split]].
  - rewrite (copyAddress_run a c Ha). reflexivity.
  - rewrite (copyAddress_run a c Ha). reflexivity.
  - intros dt. exact (copied_after_one a c dt Ha Ht).
  - intros d1 d2 Hd1. exact (copied_after_two a c d1 d2 Ha Ht Hd1).
Qed.

Lemma copied_indicator_timers_stack_witness :
  "0xABCD00000000000000000000000000000000EF01" <> "" /\
  timers connectedConfig = [] /\
  copied (st (advance 1999
                (copyAddress "0xABCD00000000000000000000000000000000EF01"
                   connectedConfig))) = true /\
  copied (st (advance 2000
                (copyAddress "0xABCD00000000000000000000000000000000EF01"
                   connectedConfig))) = false /\
  copied (st (advance 500
                (copyAddress "0xABCD00000000000000000000000000000000EF01"
                   (advance 1500
                      (copyAddress "0xABCD00000000000000000000000000000000EF01"
                         connectedConfig))))) = false.
Proof.
  assert (Ha : "0xABCD00000000000000000000000000000000EF01" <> "")
    by discriminate.
  assert (Hd : 1500 < 2000) by lia.
  destruct (copied_indicator_timers_stack connectedConfig
              "0xABCD00000000000000000000000000000000EF01" Ha eq_refl)
    as (_ & _ & Hone & Htwo).
  split; [exact Ha|]. split; [reflexivity|].
  split; [exact (Hone 1999)|]. split; [exact (Hone 2000)|].
  exact (Htwo 1500 500 Hd).
Defined.

(** ** C4: the chain changes *)

Section ChainChanged.

Lemma chainListener_network (h : ChainListener) (chainIdHex : string)
    (c : Config) :
  network (st (runSync (chainListener h chainIdHex) c))
  = Some (unknownNetwork chainIdHex).
Proof.
  destruct h as [[a|]|]; try reflexivity.
  destruct a as [|ch a]; [reflexivity|].
  destruct c as [s [e|] cb t ts pl un]; reflexivity.
Qed.

Lemma unknownNetwork_hex (digits : string) (v : Z) :
  digits <> "" ->
  hexValue digits = Some v ->
  (v <= Js.MAX_SAFE_INTEGER)%Z ->
  unknownNetwork ("0x" ++ digits)
  = {| id := Js.Num v; name := "Unknown Network (" ++ decimal v ++ ")" |}.
Proof.
  intros Hne Hv Hsafe. unfold unknownNetwork.
  rewrite (parseInt_hex digits v Hne Hv Hsafe).
  rewrite numberToString_safe; [reflexivity|].
  split; [exact (hexValue_nonneg digits v Hv)|exact Hsafe].
Qed.

Lemma unknownNetwork_rounded (digits : string) (v : Z) :
  digits <> "" ->
  hexValue digits = Some v ->
  unknownNetwork ("0x" ++ digits)
  = {| id := Js.ofInteger v;
       name := "Unknown Network (" ++ Js.numberToString (Js.ofInteger v)
               ++ ")" |}.
Proof.
  intros Hne Hv. unfold unknownNetwork.
  now rewrite (parseInt_hex_rounded digits v Hne Hv).
Qed.

Lemma handleChainChanged_refreshes (a chainIdHex : string) (c : Config) :
  a <> "" ->
  runSync (chainListener (HandleChainChanged (Some a)) chainIdHex) c
  = runSync (fetchWalletData a)
      (withSt c (applySetter (SetNetwork (Some (unknownNetwork chainIdHex)))
                   (st c))).
Proof.
  intros Ha. destruct a as [|ch a]; [congruence|]. reflexivity.
Qed.

(** One listener, with the provider present: the network is set, the
    provider is left alone, and the pool grows by the refresh the
    listener starts, if it starts one. *)
Lemma chainListener_run (h : ChainListener) (chainIdHex : string) (c : Config)
    (e : Ethereum) :
  ethereum c = Some e ->
  ethereum (runSync (chainListener h chainIdHex) c) = Some e /\
  network (st (runSync (chainListener h chainIdHex) c))
  = Some (unknownNetwork chainIdHex) /\
  exists added : list Suspended,
    pool (runSync (chainListener h chainIdHex) c) = (pool c ++ added)%list /\
    forall a : string,
      a <> "" ->
      h = HandleChainChanged (Some a) ->
      exists k, added = [WaitGetBalance a k].
Proof.
  intros He. destruct c as [s eth cb t ts pl un]. simpl in He. subst eth.
  destruct h as [[a|]|].
  - destruct a as [|ch a].
    + exec. repeat split. exists []. rewrite app_nil_r.
      split; [reflexivity|]. intros a Ha E. injection E as <-. congruence.
    + exec. repeat split. eexists. split; [reflexivity|].
      intros a' _ E. injection E as <-. eexists. reflexivity.
  - exec. repeat split. exists []. rewrite app_nil_r.
    split; [reflexivity|]. intros a _ E. discriminate E.
  - exec. repeat split. exists []. rewrite app_nil_r.
    split; [reflexivity|]. intros a _ E. discriminate E.
Qed.

(** All listeners of one event, in turn. *)
Lemma chainListeners_run (chainIdHex : string) (l : list ChainListener) :
  forall (c : Config) (e : Ethereum),
    ethereum c = Some e ->
    ethereum (fold_left (fun c' h => runSync (chainListener h chainIdHex) c')
                l c) = Some e /\
    (l <> [] ->
     network (st (fold_left
                    (fun c' h => runSync (chainListener h chainIdHex) c') l c))
     = Some (unknownNetwork chainIdHex)) /\
    exists added : list Suspended,
      pool (fold_left (fun c' h => runSync (chainListener h chainIdHex) c') l c)
      = (pool c ++ added)%list /\
      forall a : string,
        a <> "" ->
        In (HandleChainChanged (Some a)) l ->
        exists k, In (WaitGetBalance a k) added.
Proof.
  induction l as [|h l IH]; intros c e He; cbn [fold_left].
  - split; [exact He|]. split; [congruence|].
    exists []. rewrite app_nil_r. split; [reflexivity|]. intros a _ [].
  - destruct (chainListener_run h chainIdHex c e He)
      as (He1 & Hnet1 & added1 & Hpool1 & Hadd1).
    destruct (IH _ e He1) as (He' & Hnet' & added2 & Hpool' & Hadd2).
    split; [exact He'|]. split.
    + intros _. destruct l as [|h' l'].
      * exact Hnet1.
      * apply Hnet'. discriminate.
    + exists (added1 ++ added2)%list. split.
      * rewrite Hpool', Hpool1. now rewrite app_assoc.
      * intros a Ha [E|Hin].
        -- destruct (Hadd1 a Ha E) as (k & ->).
           exists k. left. reflexivity.
        -- destruct (Hadd2 a Ha Hin) as (k & Hk).
           exists k. apply in_or_app. now right.
Qed.

End ChainChanged.

(** C4, as stated, fails: [parseInt] yields a double, so beyond the
    safe integers the id set is not the integer the digits denote.
    The chain id "0x20000000000001" denotes 9007199254740993 and the
    network gets the id 9007199254740992. *)
Lemma chain_id_beyond_safe_integers_is_rounded :
  ~ forall (digits : string) (v : Z) (h : ChainListener) (c : Config),
      digits <> "" ->
      hexValue digits = Some v ->
      network (st (runSync (chainListener h ("0x" ++ digits)) c))
      = Some {| id := Js.Num v;
                name := "Unknown Network (" ++ decimal v ++ ")" |}.
Proof.
  intros H.
  assert (Hne : "20000000000001" <> "") by discriminate.
  pose proof (H "20000000000001" 9007199254740993%Z ConnChainChanged
                connectedConfig Hne eq_refl) as Hnet.
  vm_compute in Hnet. discriminate Hnet.
Qed.

(** C4, amended.  For a chain id written as ["0x"] and hexadecimal
    digits, each of the two [chainChanged] listeners sets the network
    to the Number of the integer the digits denote, that is the nearest
    double, as id and "Unknown Network (<id>)" as name.  The listener
    the effect registers is the one of the current render; with an
    address active it goes on exactly as [fetchWalletData] for that
    address does, which against an answering provider ends with the
    balance and the network the provider reports.  So a [chainChanged]
    event, with that listener among the registered ones, leaves the
    synthesized network and a balance request for the address in flight.
    When the integer is within the safe integers, the id is the integer
    itself and the name shows its decimal digits. *)
Theorem chainChanged_sets_unknown_network_and_refreshes :
  forall (digits : string) (v : Z) (c : Config),
    digits <> "" ->
    hexValue digits = Some v ->
    Js.parseInt ("0x" ++ digits) 16 = Js.ofInteger v /\
    (forall h : ChainListener,
       network (st (runSync (chainListener h ("0x" ++ digits)) c))
       = Some {| id := Js.ofInteger v;
                 name := "Unknown Network ("
                         ++ Js.numberToString (Js.ofInteger v) ++ ")" |}) /\
    (forall e : Ethereum,
       ethereum c = Some e ->
       option_map chainChanged
         (ethereum (runSync (chainEffect (walletAddress (st c))) c))
       = Some (chainChanged e ++ [HandleChainChanged (walletAddress (st c))])%list) /\
    (forall a : string,
       walletAddress (st c) = Some a ->
       a <> "" ->
       runSync (chainListener (HandleChainChanged (walletAddress (st c)))
                  ("0x" ++ digits)) c
       = runSync (fetchWalletData a)
           (withSt c
              (applySetter
                 (SetNetwork
                    (Some {| id := Js.ofInteger v;
                             name := "Unknown Network ("
                                     ++ Js.numberToString (Js.ofInteger v)
                                     ++ ")" |}))
                 (st c)))) /\
    (forall (a : string) (e : Ethereum) (pb : ProviderBehaviour) (w : Z)
            (n : ProviderNetwork) (fuel : nat),
       walletAddress (st c) = Some a ->
       a <> "" ->
       ethereum c = Some e ->
       pool c = [] ->
       2 <= fuel ->
       getBalance pb a = Resolved w ->
       getNetwork pb = Resolved n ->
       settle fuel pb
         (runSync (chainListener (HandleChainChanged (walletAddress (st c)))
                     ("0x" ++ digits)) c)
       = withSt c
           {| walletAddress := Some a;
              error := None;
              anchorEl := anchorEl (st c);
              copied := copied (st c);
              balance := Some (displayBalance w);
              network := Some {| id := Js.ofInteger (chainId n);
                                 name := netName n |};
              loading := false |}) /\
    (forall (a : string) (e : Ethereum),
       ethereum c = Some e ->
       a <> "" ->
       In (HandleChainChanged (Some a)) (chainChanged e) ->
       network (st (emitChainChanged ("0x" ++ digits) c))
       = Some {| id := Js.ofInteger v;
                 name := "Unknown Network ("
                         ++ Js.numberToString (Js.ofInteger v) ++ ")" |} /\
       exists k, In (WaitGetBalance a k)
                   (pool (emitChainChanged ("0x" ++ digits) c))) /\
    ((v <= Js.MAX_SAFE_INTEGER)%Z ->
     Js.ofInteger v = Js.Num v /\
     Js.numberToString (Js.ofInteger v) = decimal v /\
     Js.parseInt ("0x" ++ digits) 16 = Js.Num v /\
     forall h : ChainListener,
       network (st (runSync (chainListener h ("0x" ++ digits)) c))
       = Some {| id := Js.Num v;
                 name := "Unknown Network (" ++ decimal v ++ ")" |}).
Proof.
  intros digits v c Hne Hv.
  split; [exact (parseInt_hex_rounded digits v Hne Hv)|].
  split; [|split; [|split; [|split; [|split]]]].
  - intros h. rewrite chainListener_network.
    now rewrite (unknownNetwork_rounded digits v Hne Hv).
  - intros e He. destruct c as [s eth cb t ts pl un].
    simpl in He. subst eth. reflexivity.
  - intros a Hw Ha. rewrite Hw.
    rewrite (handleChainChanged_refreshes a _ c Ha).
    now rewrite (unknownNetwork_rounded digits v Hne Hv).
  - intros a e pb w n fuel Hw Ha He Hidle Hfuel Hb Hn. rewrite Hw.
    rewrite (handleChainChanged_refreshes a _ c Ha).
    destruct fuel as [|[|fuel]]; try lia.
    change (S (S fuel)) with (2 + fuel).
    rewrite (fetch_resolved fuel pb _ a) with (e := e) (w := w) (n := n);
      try assumption.
    destruct c; simpl in *. now rewrite Hw.
  - intros a e He Ha Hin. unfold emitChainChanged. rewrite He.
    destruct (chainListeners_run ("0x" ++ digits) (chainChanged e) c e He)
      as (_ & Hnet & added & Hpool & Hadd).
    split.
    + rewrite Hnet by (intros E; rewrite E in Hin; exact Hin).
      now rewrite (unknownNetwork_rounded digits v Hne Hv).
    + destruct (Hadd a Ha Hin) as (k & Hk).
      exists k. rewrite Hpool. apply in_or_app. now right.
  - intros Hsafe.
    assert (Hrange : (0 <= v <= Js.MAX_SAFE_INTEGER)%Z)
      by (split; [exact (hexValue_nonneg digits v Hv)|exact Hsafe]).
    split; [exact (ofInteger_safe v Hrange)|].
    split.
    { rewrite (ofInteger_safe v Hrange). exact (numberToString_safe v Hrange). }
    split; [exact (parseInt_hex digits v Hne Hv Hsafe)|].
    intros h. rewrite chainListener_network.
    now rewrite (unknownNetwork_hex digits v Hne Hv Hsafe).
Qed.

Lemma chainChanged_sets_unknown_network_and_refreshes_witness :
  "1" <> "" /\ hexValue "1" = Some 1%Z /\ (1 <= Js.MAX_SAFE_INTEGER)%Z /\
  Js.parseInt "0x1" 16 = Js.Num 1 /\
  (forall h : ChainListener,
     network (st (runSync (chainListener h "0x1") connectedConfig))
     = Some {| id := Js.Num 1; name := "Unknown Network (1)" |}) /\
  settle 2 grantsOne
    (runSync (chainListener
                (HandleChainChanged (walletAddress (st connectedConfig)))
                "0x1") connectedConfig)
  = withSt connectedConfig
      {| walletAddress := Some "0xABCD00000000000000000000000000000000EF01";
         error := None; anchorEl := None; copied := false;
         balance := Some "1.0";
         network := Some {| id := Js.Num 1; name := "mainnet" |};
         loading := false |} /\
  option_map chainChanged (ethereum afterConnectRendered)
  = Some [ConnChainChanged;
          HandleChainChanged
            (Some "0xABCD00000000000000000000000000000000EF01")] /\
  network (st (emitChainChanged "0x1" afterConnectRendered))
  = Some {| id := Js.Num 1; name := "Unknown Network (1)" |} /\
  network (st (runSync (chainListener ConnChainChanged "0x20000000000001")
                 connectedConfig))
  = Some {| id := Js.Num 9007199254740992;
            name := "Unknown Network (9007199254740992)" |}.
Proof.
  assert (Hne : "1" <> "") by discriminate.
  assert (Hbig : "20000000000001" <> "") by discriminate.
  assert (Hsafe : (1 <= Js.MAX_SAFE_INTEGER)%Z) by (vm_compute; discriminate).
  assert (Ha : "0xABCD00000000000000000000000000000000EF01" <> "")
    by discriminate.
  destruct (chainChanged_sets_unknown_network_and_refreshes
              "1" 1%Z connectedConfig Hne eq_refl)
    as (_ & _ & _ & _ & Hrefresh & _ & Hbounded).
  destruct (Hbounded Hsafe) as (_ & _ & Hparse & Hnet).
  destruct (chainChanged_sets_unknown_network_and_refreshes
              "1" 1%Z afterConnectRendered Hne eq_refl)
    as (_ & _ & _ & _ & _ & Hemit & _).
  destruct (chainChanged_sets_unknown_network_and_refreshes
              "20000000000001" 9007199254740993%Z connectedConfig Hbig eq_refl)
    as (_ & Hrounded & _).
  split; [exact Hne|]. split; [reflexivity|]. split; [exact Hsafe|].
  split; [exact Hparse|]. split; [exact Hnet|].
  split.
  - exact (Hrefresh "0xABCD00000000000000000000000000000000EF01" freshEthereum
             grantsOne (10 ^ 18)%Z {| chainId := 1; netName := "mainnet" |} 2
             eq_refl Ha eq_refl eq_refl (le_n 2) eq_refl eq_refl).
  - split; [reflexivity|]. split.
    + exact (proj1 (Hemit "0xABCD00000000000000000000000000000000EF01"
                      {| selectedAddress := None;
                         accountsChanged := [ConnAccountsChanged];
                         chainChanged :=
                           [ConnChainChanged;
                            HandleChainChanged
                              (Some "0xABCD00000000000000000000000000000000EF01")] |}
                      eq_refl Ha (or_intror (or_introl eq_refl)))).
    + exact (Hrounded ConnChainChanged).
Defined.

(** ** C9: the loading flag *)



Lemma runSync_clearsLoading (p : Proc) :
  forall (held : bool) (c : Config),
    clearsLoading held p ->
    (held = true -> loadingOnlyInFlight c) ->
    Forall resumable (pool c) ->
    Forall (fun x => clearsLoading true (snd x)) (timers c) ->
    betweenTasks (runSync p c).
Proof.
  unfold betweenTasks, loadingOnlyInFlight.
  induction p as [ | err | u k IH | a IHa b IHb | k IH | op k IH | t k IH
                 | cb IHcb d k IH | k IH | addr k IH | k IH
                 | call IHcall k IH ];
    intros held c Hp Hheld Hpool Htimers; cbn [runSync].
  - split; [auto|split; assumption].
  - split; [exact (Hheld Hp)|split; assumption].
  - destruct u; cbn [clearsLoading] in Hp;
      try (apply (IH held); [exact Hp|exact Hheld|exact Hpool|exact Htimers]).
    apply (IH (negb v)); [exact Hp| |exact Hpool|exact Htimers].
    destruct v; simpl; [discriminate|]. intros _ Habs. discriminate Habs.
  - destruct Hp as [Ha Hb].
    destruct (ethereum c); [apply (IHa held)|apply (IHb held)]; assumption.
  - apply (IH _ held); [apply Hp|exact Hheld|exact Hpool|exact Htimers].
  - apply (IH held); [exact Hp|exact Hheld|exact Hpool|exact Htimers].
  - apply (IH held); [exact Hp|exact Hheld|exact Hpool|exact Htimers].
  - destruct Hp as [Hcb Hk].
    apply (IH held); [exact Hk|exact Hheld|exact Hpool|].
    cbn [withClock timers]. apply Forall_app. split; [exact Htimers|].
    constructor; [exact Hcb|constructor].
  - split; [|split; [|exact Htimers]].
    + intros _. cbn [suspend withPool pool]. now destruct (pool c).
    + cbn [suspend withPool pool]. apply Forall_app. split; [exact Hpool|].
      constructor; [exact Hp|constructor].
  - split; [|split; [|exact Htimers]].
    + intros _. cbn [suspend withPool pool]. now destruct (pool c).
    + cbn [suspend withPool pool]. apply Forall_app. split; [exact Hpool|].
      constructor; [exact Hp|constructor].
  - split; [|split; [|exact Htimers]].
    + intros _. cbn [suspend withPool pool]. now destruct (pool c).
    + cbn [suspend withPool pool]. apply Forall_app. split; [exact Hpool|].
      constructor; [exact Hp|constructor].
  - destruct Hp as [Hcall Hk].
    destruct (IHcall held c Hcall Hheld Hpool Htimers) as (H1 & H2 & H3).
    apply (IH true); [exact Hk|intros _; exact H1|exact H2|exact H3].
Qed.


Lemma fetchWalletData_clearsLoading (held : bool) (a : string) :
  clearsLoading held (fetchWalletData a).
Proof. discipline. Qed.

Lemma connectWallet_clearsLoading (held : bool) :
  clearsLoading held connectWallet.
Proof. discipline. Qed.

Lemma handleDisconnect_clearsLoading : clearsLoading true handleDisconnect.
Proof. discipline. Qed.

Lemma operation_clearsLoading (p : Proc) :
  Operation p -> clearsLoading true p.
Proof.
  intros [ | | a | a target | | a | | a | a ].
  - discipline.
  - apply connectWallet_clearsLoading.
  - apply fetchWalletData_clearsLoading.
  - unfold handleClick. destruct (Js.truthy a); [reflexivity|].
    split; [apply connectWallet_clearsLoading|reflexivity].
  - reflexivity.
  - unfold copyToClipboard. discipline.
  - apply handleDisconnect_clearsLoading.
  - unfold chainEffect. discipline.
  - unfold chainEffectCleanup. discipline.
Qed.

Lemma accountsListener_clearsLoading (h : AccountsListener)
    (newAccounts : list string) :
  clearsLoading true (accountsListener h newAccounts).
Proof. destruct h. discipline. Qed.

Lemma chainListener_clearsLoading (h : ChainListener) (chainIdHex : string) :
  clearsLoading true (chainListener h chainIdHex).
Proof. destruct h; discipline. Qed.

Lemma betweenTasks_runSync (p : Proc) (c : Config) :
  clearsLoading true p -> betweenTasks c -> betweenTasks (runSync p c).
Proof.
  intros Hp (HJ & Hpool & Htimers).
  apply (runSync_clearsLoading p true); auto.
Qed.

Lemma betweenTasks_fold {A : Type} (body : A -> Proc) (l : list A) :
  Forall (fun x => clearsLoading true (body x)) l ->
  forall c, betweenTasks c ->
  betweenTasks (fold_left (fun c' x => runSync (body x) c') l c).
Proof.
  induction l as [|x l IH]; intros Hbody c Hc; cbn [fold_left].
  - exact Hc.
  - inversion Hbody as [|? ? Hx Hl]; subst.
    apply (IH Hl). apply betweenTasks_runSync; [exact Hx|exact Hc].
Qed.

Lemma Forall_filter_keeps {A : Type} (P : A -> Prop) (f : A -> bool)
    (l : list A) :
  Forall P l -> Forall P (filter f l).
Proof.
  rewrite !Forall_forall. intros H x Hx.
  apply filter_In in Hx. now apply H.
Qed.

Lemma step_betweenTasks (c c' : Config) :
  step c c' -> betweenTasks c -> betweenTasks c'.
Proof.
  intros Hstep Hc. destruct Hstep as [p c Hop | accts c | chainIdHex c
                                     | before after s pb c Hsplit | dt c | e c].
  - apply betweenTasks_runSync; [apply operation_clearsLoading|]; assumption.
  - unfold emitAccountsChanged. destruct (ethereum c) as [e|]; [|exact Hc].
    apply (betweenTasks_fold (fun h => accountsListener h accts)); [|exact Hc].
    apply Forall_forall. intros h _. apply accountsListener_clearsLoading.
  - unfold emitChainChanged. destruct (ethereum c) as [e|]; [|exact Hc].
    apply (betweenTasks_fold (fun h => chainListener h chainIdHex)); [|exact Hc].
    apply Forall_forall. intros h _. apply chainListener_clearsLoading.
  - destruct Hc as (_ & Hpool & Htimers).
    rewrite Hsplit in Hpool. apply Forall_app in Hpool.
    destruct Hpool as [Hbefore Hrest].
    inversion Hrest as [|? ? Hs Hafter]; subst.
    assert (Hpool' : Forall resumable (pool (withPool c (before ++ after))))
      by (cbn [withPool pool]; apply Forall_app; split; assumption).
    destruct s as [k | addr k | k]; cbn [resumeWith];
      apply (runSync_clearsLoading _ false);
      try apply Hs; try discriminate; assumption.
  - destruct Hc as (HJ & Hpool & Htimers). unfold advance.
    apply (betweenTasks_fold (fun x : nat * Proc => snd x)).
    + apply Forall_filter_keeps. exact Htimers.
    + split; [exact HJ|]. split; [exact Hpool|].
      cbn [withClock timers]. apply Forall_filter_keeps. exact Htimers.
  - exact Hc.
Qed.

Lemma reachable_betweenTasks (e : option Ethereum) (c : Config) :
  reachable e c -> betweenTasks c.
Proof.
  induction 1 as [|c c' _ IH Hstep].
  - split; [discriminate|]. split; constructor.
  - exact (step_betweenTasks c c' Hstep IH).
Qed.

Lemma fetchWalletData_completes (fuel : nat) (pb : ProviderBehaviour)
    (c : Config) (a : string) :
  pool c = [] ->
  exists c' : Config,
    settle (2 + fuel) pb (runSync (fetchWalletData a) c) = c' /\
    pool c' = [] /\ loading (st c') = false.
Proof.
  intros Hidle. destruct c as [s [e|] cb t ts pl un]; simpl in Hidle; subst pl;
    exec.
  - destruct (getBalance pb a) as [w|err]; exec.
    + destruct (getNetwork pb) as [n|err]; exec;
        rewrite settle_idle by reflexivity;
        (eexists; split; [reflexivity|split; reflexivity]).
    + destruct fuel; (eexists; split; [reflexivity|split; reflexivity]).
  - eexists; split; [reflexivity|split; reflexivity].
Qed.

Lemma connectWallet_completes (fuel : nat) (pb : ProviderBehaviour)
    (c : Config) :
  pool c = [] ->
  exists c' : Config,
    settle (3 + fuel) pb (runSync connectWallet c) = c' /\
    pool c' = [] /\ loading (st c') = false.
Proof.
  intros Hidle. destruct c as [s [e|] cb t ts pl un]; simpl in Hidle; subst pl;
    exec; [|eexists; (split; [reflexivity|split; reflexivity])].
  destruct (requestAccounts pb) as [[|first others]|err]; exec;
    [eexists; (split; [reflexivity|split; reflexivity])|
    |eexists; (split; [reflexivity|split; reflexivity])].
  destruct (getBalance pb first) as [w|err]; exec.
  - destruct (getNetwork pb) as [n|err]; exec;
      rewrite settle_idle by reflexivity;
      (eexists; split; [reflexivity|split; reflexivity]).
  - destruct fuel; (eexists; split; [reflexivity|split; reflexivity]).
Qed.

(** C9.  Whatever the user, the provider and the clock do after the
    component is mounted, the loading flag is on only while a call
    waits for the provider, so it is off whenever no call is in flight.
    A call of [fetchWalletData] or of [connectWallet] started when none
    is in flight runs to its end whatever the provider answers, and
    ends with the flag off. *)
Theorem loading_only_while_in_flight :
  (forall (e : option Ethereum) (c : Config),
     reachable e c ->
     (loading (st c) = true -> pool c <> []) /\
     (pool c = [] -> loading (st c) = false)) /\
  (forall (fuel : nat) (pb : ProviderBehaviour) (c : Config) (a : string),
     2 <= fuel ->
     pool c = [] ->
     pool (settle fuel pb (runSync (fetchWalletData a) c)) = [] /\
     loading (st (settle fuel pb (runSync (fetchWalletData a) c))) = false) /\
  (forall (fuel : nat) (pb : ProviderBehaviour) (c : Config),
     3 <= fuel ->
     pool c = [] ->
     pool (settle fuel pb (runSync connectWallet c)) = [] /\
     loading (st (settle fuel pb (runSync connectWallet c))) = false).
Proof.
  split; [|split].
  - intros e c Hreach.
    destruct (reachable_betweenTasks e c Hreach) as (HJ & _).
    split; [exact HJ|].
    intros Hidle. destruct (loading (st c)) eqn:Hl; [|reflexivity].
    elim (HJ Hl Hidle).
  - intros fuel pb c a Hfuel Hidle.
    destruct fuel as [|[|fuel]]; try lia.
    destruct (fetchWalletData_completes fuel pb c a Hidle)
      as (c' & Hrun & Hp & Hl).
    change (S (S fuel)) with (2 + fuel). rewrite Hrun. now split.
  - intros fuel pb c Hfuel Hidle.
    destruct fuel as [|[|[|fuel]]]; try lia.
    destruct (connectWallet_completes fuel pb c Hidle)
      as (c' & Hrun & Hp & Hl).
    change (S (S (S fuel))) with (3 + fuel). rewrite Hrun. now split.
Qed.

Lemma loading_only_while_in_flight_witness :
  reachable (Some freshEthereum)
    (runSync connectWallet (mounted (Some freshEthereum))) /\
  loading (st (runSync connectWallet (mounted (Some freshEthereum)))) = true /\
  pool (runSync connectWallet (mounted (Some freshEthereum))) <> [] /\
  loading (st (settle 3 networkFails
                 (runSync connectWallet (mounted (Some freshEthereum)))))
  = false.
Proof.
  assert (Hreach : reachable (Some freshEthereum)
                     (runSync connectWallet (mounted (Some freshEthereum)))).
  { apply (ReachStep _ (mounted (Some freshEthereum))).
    - apply ReachMounted.
    - apply StepStart. apply OpConnectWallet. }
  destruct loading_only_while_in_flight as (Hinv & _ & Hconnect).
  split; [exact Hreach|]. split; [reflexivity|].
  split; [exact (proj1 (Hinv _ _ Hreach) eq_refl)|].
  exact (proj2 (Hconnect 3 networkFails (mounted (Some freshEthereum))
                  (le_n 3) eq_refl)).
Defined.

(** * Further properties of the component *)

(** ** [shortenAddress] on addresses of any length *)

Section ShortAddresses.

Lemma split_before_last (n : nat) (s : string) :
  n <= String.length s ->
  exists a b, s = a ++ b /\ String.length a = String.length s - n /\
              String.length b = n.
Proof.
  intros Hn.
  destruct (split_at (String.length s - n) s) as (a & b & Hs & Ha); [lia|].
  exists a, b. split; [exact Hs|]. split; [exact Ha|].
  assert (Hlen : String.length s = String.length a + String.length b)
    by (rewrite Hs at 1; apply length_app).
  lia.
Qed.

End ShortAddresses.

(** X1.  For an address of any length, [shortenAddress] joins a prefix
    and a suffix of the address by three dots, each of four characters
    or of the whole address when that is shorter; the result has
    [2 * min 4 length + 3] characters, and an address of at most four
    characters appears twice in full. *)
Theorem shortenAddress_any_length :
  forall address : string,
    (exists first rest before last : string,
       address = first ++ rest /\
       address = before ++ last /\
       String.length first = Nat.min 4 (String.length address) /\
       String.length last = Nat.min 4 (String.length address) /\
       shortenAddress address = first ++ "..." ++ last) /\
    String.length (shortenAddress address)
    = 2 * Nat.min 4 (String.length address) + 3 /\
    (String.length address <= 4 ->
     shortenAddress address = address ++ "..." ++ address).
Proof.
  intros address.
  set (len := String.length address).
  destruct (split_at (Nat.min 4 len) address)
    as (first & rest & Hfirst & Hlf); [lia|].
  destruct (split_before_last (Nat.min 4 len) address)
    as (before & last & Hlast & Hlb & Hll); [fold len; lia|].
  fold len in Hlb.
  assert (Hrun : shortenAddress address = first ++ "..." ++ last).
  { unfold shortenAddress, Js.substring, Js.clamp. fold len.
    replace (Z.to_nat (Z.min (Z.max 0 0) (Z.of_nat len))) with 0 by lia.
    replace (Z.to_nat (Z.min (Z.max 4 0) (Z.of_nat len)))
      with (Nat.min 4 len) by lia.
    replace (Z.to_nat (Z.min (Z.max (Z.of_nat len - 4) 0) (Z.of_nat len)))
      with (len - Nat.min 4 len) by lia.
    replace (Nat.min 0 (Nat.min 4 len)) with 0 by lia.
    replace (Nat.max 0 (Nat.min 4 len) - 0) with (Nat.min 4 len) by lia.
    replace (Nat.min (len - Nat.min 4 len) len)
      with (len - Nat.min 4 len) by lia.
    replace (Nat.max (len - Nat.min 4 len) len - (len - Nat.min 4 len))
      with (Nat.min 4 len) by lia.
    f_equal.
    - rewrite Hfirst at 1. rewrite <- Hlf. apply substring_head.
    - f_equal. rewrite Hlast at 1. rewrite <- Hlb, substring_tail, <- Hll.
      apply substring_whole. }
  split; [|split].
  - exists first, rest, before, last. repeat split; assumption.
  - rewrite Hrun, !length_app, Hlf, Hll. simpl String.length. lia.
  - intros Hshort. rewrite Hrun.
    assert (Hr : String.length rest = 0).
    { assert (H : len = String.length first + String.length rest)
        by (unfold len; rewrite Hfirst at 1; apply length_app).
      lia. }
    assert (Hb : String.length before = 0) by lia.
    destruct rest; [|discriminate Hr]. destruct before; [|discriminate Hb].
    assert (Ef : first = address).
    { rewrite Hfirst. clear. induction first; simpl; congruence. }
    assert (El : last = address) by (rewrite Hlast; reflexivity).
    now rewrite Ef, El.
Qed.

Lemma shortenAddress_any_length_witness :
  String.length "0x1" <= 4 /\
  shortenAddress "0x1" = "0x1...0x1" /\
  String.length (shortenAddress "0x12345") = 11.
Proof.
  destruct (shortenAddress_any_length "0x1") as (_ & _ & Hshort).
  destruct (shortenAddress_any_length "0x12345") as (_ & Hlen & _).
  split; [simpl; lia|]. split.
  - exact (Hshort (le_S _ _ (le_n 3))).
  - exact Hlen.
Defined.

(** ** How many links are marked *)

Section MarkedLinks.

Lemma markedCurrent_renderLink (currentPath : string) (n : NavigationData) :
  markedCurrent (renderLink currentPath n)
  = negb (String.eqb (path n) "/") && String.eqb (path n) currentPath.
Proof.
  unfold markedCurrent, renderLink, linkColor. cbn [color].
  rewrite (String.eqb_sym currentPath (path n)).
  destruct (String.eqb (path n) "/"); [reflexivity|].
  destruct (String.eqb (path n) currentPath); reflexivity.
Qed.

Lemma entriesTo_nodup (destination : string)
    (navigations : list NavigationData) :
  NoDup (map path navigations) ->
  length (entriesTo destination navigations) <= 1.
Proof.
  induction navigations as [|n rest IH]; intros Hnd; cbn; [lia|].
  inversion Hnd as [|? ? Hnotin Hrest]; subst.
  destruct (String.eqb_spec (path n) destination) as [E|NE].
  - cbn [length].
    assert (Hnone : entriesTo destination rest = []).
    { unfold entriesTo. destruct (filter _ rest) as [|m l] eqn:Hf;
        [reflexivity|].
      assert (Hin : In m (filter (fun n0 => String.eqb (path n0) destination)
                            rest)) by (rewrite Hf; left; reflexivity).
      apply filter_In in Hin. destruct Hin as [Hm Hp].
      apply String.eqb_eq in Hp. elim Hnotin.
      rewrite E, <- Hp. now apply in_map. }
    unfold entriesTo in Hnone. rewrite Hnone. simpl. lia.
  - exact (IH Hrest).
Qed.

End MarkedLinks.

(** X2.  On a page other than ["/"], the links marked current are as
    many as the entries that lead to the page, so at most one when the
    destinations are pairwise distinct; on the page ["/"] no link is
    marked. *)
Theorem marked_links_count :
  forall (navigations : list NavigationData) (currentPath : string),
    (currentPath <> "/" ->
     length (markedLinks (renderNavigation navigations currentPath))
     = length (entriesTo currentPath navigations)) /\
    (currentPath <> "/" ->
     NoDup (map path navigations) ->
     length (markedLinks (renderNavigation navigations currentPath)) <= 1) /\
    markedLinks (renderNavigation navigations "/") = [].
Proof.
  intros navigations currentPath.
  assert (Hcount : currentPath <> "/" ->
            length (markedLinks (renderNavigation navigations currentPath))
            = length (entriesTo currentPath navigations)).
  { intros Hcp. unfold markedLinks, renderNavigation, entriesTo.
    induction navigations as [|n rest IH]; cbn [map filter]; [reflexivity|].
    rewrite markedCurrent_renderLink.
    destruct (String.eqb_spec (path n) currentPath) as [E|NE].
    - destruct (String.eqb_spec (path n) "/") as [R|NR]; [congruence|].
      cbn [negb andb length]. now rewrite IH.
    - rewrite andb_false_r. exact IH. }
  split; [exact Hcount|]. split.
  - intros Hcp Hnd. rewrite (Hcount Hcp). now apply entriesTo_nodup.
  - clear Hcount. unfold markedLinks, renderNavigation.
    induction navigations as [|n rest IH]; cbn [map filter]; [reflexivity|].
    rewrite markedCurrent_renderLink.
    destruct (String.eqb (path n) "/"); cbn [negb andb]; exact IH.
Qed.

Lemma marked_links_count_witness :
  "/team" <> "/" /\
  NoDup (map path sampleNavigations) /\
  length (markedLinks (renderNavigation sampleNavigations "/team")) = 1 /\
  length (markedLinks (renderNavigation sampleNavigations "/team")) <= 1.
Proof.
  assert (Hcp : "/team" <> "/") by discriminate.
  assert (Hnd : NoDup (map path sampleNavigations)).
  { repeat constructor; simpl; intuition discriminate. }
  split; [exact Hcp|]. split; [exact Hnd|].
  destruct (marked_links_count sampleNavigations "/team") as (Hc & Hle & _).
  split; [exact (Hc Hcp)|exact (Hle Hcp Hnd)].
Defined.

(** ** Chain ids that are not ["0x"] and hexadecimal digits *)

Section OddChainIds.

Lemma hexValue_first (c : ascii) (rest : string) (v : Z) :
  hexValue (String c rest) = Some v -> exists d, hexDigitValue c = Some d.
Proof.
  simpl. destruct (hexDigitValue c) as [d|]; [eauto|discriminate].
Qed.

Lemma hexValue_rest (c : ascii) (rest : string) (v : Z) :
  hexValue (String c rest) = Some v -> exists w, hexValue rest = Some w.
Proof.
  simpl. destruct (hexDigitValue c); [|discriminate].
  destruct (hexValue rest) as [w|]; [eauto|discriminate].
Qed.

Lemma parseInt_unprefixed (digits : string) (v : Z) :
  digits <> "" ->
  hexValue digits = Some v ->
  Js.parseInt digits 16 = Js.ofInteger v.
Proof.
  intros Hne Hv.
  pose proof (parseDigits_hex_start digits v Hne Hv) as Hs.
  destruct digits as [|c1 rest]; [congruence|]. clear Hne.
  destruct (hexValue_first c1 rest v Hv) as (d1 & H1).
  destruct rest as [|c2 rest2].
  - clear Hv. each_character c1; vm_compute in H1; try discriminate H1;
      clear H1; unfold Js.parseInt; cbv - [Js.parseDigits Z.mul Js.ofInteger];
      rewrite Hs; f_equal; destruct v; reflexivity.
  - destruct (hexValue_rest c1 _ v Hv) as (w & Hw).
    destruct (hexValue_first c2 rest2 w Hw) as (d2 & H2). clear Hv Hw.
    each_character c1; vm_compute in H1; try discriminate H1; clear H1;
      each_character c2; vm_compute in H2; try discriminate H2; clear H2;
      unfold Js.parseInt; cbv - [Js.parseDigits Z.mul Js.ofInteger];
      rewrite Hs; f_equal; destruct v; reflexivity.
Qed.

Lemma parseInt_not_a_number (c : ascii) (rest : string) :
  Js.isWhiteSpace c = false ->
  c <> "-"%char ->
  c <> "+"%char ->
  hexDigitValue c = None ->
  Js.parseInt (String c rest) 16 = Js.NaN.
Proof.
  intros Hw Hm Hp Hd.
  each_character c; vm_compute in Hw; try discriminate Hw;
    vm_compute in Hd; try discriminate Hd;
    try (elim Hm; reflexivity); try (elim Hp; reflexivity);
    reflexivity.
Qed.

Lemma parseDigits_stops (digits : string) (c : ascii) (rest : string) :
  hexDigitValue c = None ->
  forall (v a : Z),
    hexValue digits = Some v ->
    Js.parseDigits 16 (digits ++ String c rest) (Some a)
    = Some (a * 16 ^ Z.of_nat (String.length digits) + v)%Z.
Proof.
  intros Hc. induction digits as [|x digits IH]; intros v a Hv; simpl in Hv.
  - injection Hv as <-. cbn [append Js.parseDigits].
    rewrite radixDigit_16, Hc. f_equal. simpl. lia.
  - cbn [append Js.parseDigits]. rewrite radixDigit_16.
    destruct (hexDigitValue x) as [d|]; [|discriminate].
    destruct (hexValue digits) as [w|] eqn:Hw; [|discriminate].
    injection Hv as <-.
    rewrite (IH w (a * 16 + d)%Z eq_refl). f_equal.
    change (String.length (String x digits)) with (S (String.length digits)).
    rewrite Nat2Z.inj_succ, Z.pow_succ_r by lia. ring.
Qed.

Lemma parseInt_trailing (digits : string) (c : ascii) (rest : string) (v : Z) :
  digits <> "" ->
  hexValue digits = Some v ->
  hexDigitValue c = None ->
  Js.parseInt ("0x" ++ digits ++ String c rest) 16 = Js.ofInteger v.
Proof.
  intros Hne Hv Hc.
  destruct digits as [|x digits]; [congruence|].
  unfold Js.parseInt. cbn [append Js.trimStart Js.isWhiteSpace].
  simpl. rewrite radixDigit_16.
  simpl in Hv.
  destruct (hexDigitValue x) as [d|]; [|discriminate].
  destruct (hexValue digits) as [w|] eqn:Hw; [|discriminate].
  injection Hv as <-.
  rewrite (parseDigits_stops digits c rest Hc w d Hw).
  f_equal.
  destruct (d * 16 ^ Z.of_nat (String.length digits) + w)%Z; reflexivity.
Qed.

End OddChainIds.

(** X3.  A chain id given as hexadecimal digits without the ["0x"]
    prefix is read in base 16 all the same: every [chainChanged]
    listener sets the network to the value the digits denote in base
    16, also when they look decimal ("137" gives 311). *)
Theorem chain_id_without_prefix_is_read_as_hex :
  forall (digits : string) (v : Z) (h : ChainListener) (c : Config),
    digits <> "" ->
    hexValue digits = Some v ->
    (v <= Js.MAX_SAFE_INTEGER)%Z ->
    network (st (runSync (chainListener h digits) c))
    = Some {| id := Js.Num v;
              name := "Unknown Network (" ++ decimal v ++ ")" |}.
Proof.
  intros digits v h c Hne Hv Hsafe.
  assert (Hrange : (0 <= v <= Js.MAX_SAFE_INTEGER)%Z)
    by (split; [exact (hexValue_nonneg digits v Hv)|exact Hsafe]).
  rewrite chainListener_network. unfold unknownNetwork.
  rewrite (parseInt_unprefixed digits v Hne Hv).
  rewrite (ofInteger_safe v Hrange), (numberToString_safe v Hrange).
  reflexivity.
Qed.

Lemma chain_id_without_prefix_is_read_as_hex_witness :
  "137" <> "" /\ hexValue "137" = Some 311%Z /\
  (311 <= Js.MAX_SAFE_INTEGER)%Z /\
  network (st (runSync (chainListener ConnChainChanged "137") connectedConfig))
  = Some {| id := Js.Num 311; name := "Unknown Network (311)" |}.
Proof.
  assert (Hne : "137" <> "") by discriminate.
  assert (Hsafe : (311 <= Js.MAX_SAFE_INTEGER)%Z)
    by (vm_compute; discriminate).
  split; [exact Hne|]. split; [reflexivity|]. split; [exact Hsafe|].
  exact (chain_id_without_prefix_is_read_as_hex "137" 311%Z ConnChainChanged
           connectedConfig Hne eq_refl Hsafe).
Defined.

(** X4.  A chain id that is empty, or that starts with a character
    that is no white space, no sign and no hexadecimal digit, is not
    refused: every [chainChanged] listener sets the network to the id
    NaN with the name "Unknown Network (NaN)". *)
Theorem unreadable_chain_id_gives_NaN_network :
  forall (chainIdHex : string) (h : ChainListener) (c : Config),
    unreadableChainId chainIdHex ->
    network (st (runSync (chainListener h chainIdHex) c))
    = Some {| id := Js.NaN; name := "Unknown Network (NaN)" |}.
Proof.
  intros chainIdHex h c Hbad.
  rewrite chainListener_network. unfold unknownNetwork.
  destruct Hbad as [->|(ch & rest & -> & Hw & Hm & Hp & Hd)].
  - reflexivity.
  - rewrite (parseInt_not_a_number ch rest Hw Hm Hp Hd). reflexivity.
Qed.

Lemma unreadable_chain_id_gives_NaN_network_witness :
  unreadableChainId "mainnet" /\
  network (st (runSync (chainListener (HandleChainChanged None) "mainnet")
                 connectedConfig))
  = Some {| id := Js.NaN; name := "Unknown Network (NaN)" |}.
Proof.
  assert (Hbad : unreadableChainId "mainnet").
  { right. exists "m"%char, "ainnet".
    repeat split; try reflexivity; discriminate. }
  split; [exact Hbad|].
  exact (unreadable_chain_id_gives_NaN_network "mainnet"
           (HandleChainChanged None) connectedConfig Hbad).
Defined.

(** X5.  What follows the hexadecimal digits of a chain id is ignored:
    with ["0x"], digits, and then anything that starts with a character
    that is no hexadecimal digit, every [chainChanged] listener sets the
    network of the digits alone. *)
Theorem chain_id_trailing_characters_ignored :
  forall (digits : string) (v : Z) (extra : ascii) (rest : string)
         (h : ChainListener) (c : Config),
    digits <> "" ->
    hexValue digits = Some v ->
    (v <= Js.MAX_SAFE_INTEGER)%Z ->
    hexDigitValue extra = None ->
    network (st (runSync (chainListener h ("0x" ++ digits ++ String extra rest))
                   c))
    = Some {| id := Js.Num v;
              name := "Unknown Network (" ++ decimal v ++ ")" |}.
Proof.
  intros digits v extra rest h c Hne Hv Hsafe Hextra.
  assert (Hrange : (0 <= v <= Js.MAX_SAFE_INTEGER)%Z)
    by (split; [exact (hexValue_nonneg digits v Hv)|exact Hsafe]).
  rewrite chainListener_network. unfold unknownNetwork.
  rewrite (parseInt_trailing digits extra rest v Hne Hv Hextra).
  rewrite (ofInteger_safe v Hrange), (numberToString_safe v Hrange).
  reflexivity.
Qed.

Lemma chain_id_trailing_characters_ignored_witness :
  "89" <> "" /\ hexValue "89" = Some 137%Z /\
  (137 <= Js.MAX_SAFE_INTEGER)%Z /\ hexDigitValue " " = None /\
  network (st (runSync (chainListener ConnChainChanged "0x89 (polygon)")
                 connectedConfig))
  = Some {| id := Js.Num 137; name := "Unknown Network (137)" |}.
Proof.
  assert (Hne : "89" <> "") by discriminate.
  assert (Hsafe : (137 <= Js.MAX_SAFE_INTEGER)%Z)
    by (vm_compute; discriminate).
  split; [exact Hne|]. split; [reflexivity|]. split; [exact Hsafe|].
  split; [reflexivity|].
  exact (chain_id_trailing_characters_ignored "89" 137%Z " "%char "(polygon)"
           ConnChainChanged connectedConfig Hne eq_refl Hsafe eq_refl).
Defined.

(** ** Outcomes of [fetchWalletData] and [connectWallet] *)

Section Outcomes.

Lemma substring_prefix_6 (s : string) :
  exists rest : string,
    s = Js.substring s 0 (Some 6%Z) ++ rest /\
    String.length (Js.substring s 0 (Some 6%Z))
    = Nat.min 6 (String.length s).
Proof.
  destruct (split_at (Nat.min 6 (String.length s)) s)
    as (a & b & Hs & Ha); [lia|].
  exists b.
  assert (Hsub : Js.substring s 0 (Some 6%Z) = a).
  { unfold Js.substring, Js.clamp.
    replace (Z.to_nat (Z.min (Z.max 0 0) (Z.of_nat (String.length s))))
      with 0 by lia.
    replace (Z.to_nat (Z.min (Z.max 6 0) (Z.of_nat (String.length s))))
      with (Nat.min 6 (String.length s)) by lia.
    replace (Nat.min 0 (Nat.min 6 (String.length s))) with 0 by lia.
    replace (Nat.max 0 (Nat.min 6 (String.length s)) - 0)
      with (Nat.min 6 (String.length s)) by lia.
    rewrite Hs at 2. rewrite <- Ha. apply substring_head. }
  rewrite Hsub. split; [exact Hs|exact Ha].
Qed.

Lemma connect_resolved (fuel : nat) (pb : ProviderBehaviour) (c : Config)
    (e : Ethereum) (first : string) (others : list string) (w : Z)
    (n : ProviderNetwork) :
  ethereum c = Some e ->
  pool c = [] ->
  requestAccounts pb = Resolved (first :: others) ->
  getBalance pb first = Resolved w ->
  getNetwork pb = Resolved n ->
  settle (3 + fuel) pb (runSync connectWallet c)
  = withEthereum
      (withSt c {| walletAddress := Some first;
                   error := None;
                   anchorEl := anchorEl (st c);
                   copied := copied (st c);
                   balance := Some (displayBalance w);
                   network := Some {| id := Js.ofInteger (chainId n);
                                      name := netName n |};
                   loading := false |})
      (Some (withConnectListeners e)).
Proof.
  intros He Hidle Hacc Hb Hn.
  destruct c as [s eth cb t ts pl un]. simpl in He, Hidle. subst eth pl.
  exec. rewrite Hacc. exec. rewrite Hb. exec. rewrite Hn. exec.
  apply settle_idle. reflexivity.
Qed.

(** The same call in the running component. *)
Lemma option_string_eqb_refl (a : option string) : option_string_eqb a a = true.
Proof. destruct a as [x|]; [exact (String.eqb_refl x)|reflexivity]. Qed.

Lemma rerender_same (previous : option string) (c : Config) :
  walletAddress (st c) = previous -> rerender previous c = c.
Proof.
  intros <-. unfold rerender. now rewrite option_string_eqb_refl.
Qed.

Lemma settleRendered_idle (fuel : nat) (pb : ProviderBehaviour) (c : Config) :
  pool c = [] -> settleRendered fuel pb c = c.
Proof.
  intros Hp. destruct fuel; [reflexivity|].
  change (settleRendered (S fuel) pb c)
    with (match pool c with
          | [] => c
          | s :: rest =>
              settleRendered fuel pb
                (rendered (fun c' => resumeWith pb s (withPool c' rest)) c)
          end).
  now rewrite Hp.
Qed.

Lemma settleRendered_step (fuel : nat) (pb : ProviderBehaviour) (c : Config)
    (s : Suspended) (rest : list Suspended) :
  pool c = s :: rest ->
  settleRendered (S fuel) pb c
  = settleRendered fuel pb
      (rerender (walletAddress (st c)) (resumeWith pb s (withPool c rest))).
Proof.
  intros Hp.
  change (settleRendered (S fuel) pb c)
    with (match pool c with
          | [] => c
          | s' :: rest' =>
              settleRendered fuel pb
                (rendered (fun c' => resumeWith pb s' (withPool c' rest')) c)
          end).
  now rewrite Hp.
Qed.

Lemma connect_granted_rendered (fuel : nat) (pb : ProviderBehaviour)
    (c : Config) (e : Ethereum) (first : string) (others : list string) :
  ethereum c = Some e ->
  pool c = [] ->
  requestAccounts pb = Resolved (first :: others) ->
  exists s' : State,
    settleRendered (3 + fuel) pb (rendered (runSync connectWallet) c)
    = {| st := s';
         ethereum := Some (withConnectListeners
                             (effectSwapped (walletAddress (st c)) (Some first)
                                e));
         clipboard := clipboard c;
         now := now c;
         timers := timers c;
         pool := [];
         uncaught := uncaught c |} /\
    walletAddress s' = Some first /\
    forall (w : Z) (n : ProviderNetwork),
      getBalance pb first = Resolved w ->
      getNetwork pb = Resolved n ->
      s' = {| walletAddress := Some first;
              error := None;
              anchorEl := anchorEl (st c);
              copied := copied (st c);
              balance := Some (displayBalance w);
              network := Some {| id := Js.ofInteger (chainId n);
                                 name := netName n |};
              loading := false |}.
Proof.
  intros He Hidle Hacc.
  destruct c as [s eth cb t ts pl un]. simpl in He, Hidle. subst eth pl.
  destruct s as [wa er an cp bal net ld].
  unfold rendered. exec.
  rewrite rerender_same by reflexivity.
  erewrite settleRendered_step by reflexivity.
  exec. rewrite Hacc. exec.
  unfold rerender at 1. unfold effectSwapped. cbn [st walletAddress].
  destruct (option_string_eqb wa (Some first)) eqn:Hsame; exec;
    (erewrite settleRendered_step by reflexivity); exec;
    (destruct (getBalance pb first) as [w|err] eqn:Hb; exec;
     [ rewrite rerender_same by reflexivity;
       (erewrite settleRendered_step by reflexivity); exec;
       destruct (getNetwork pb) as [n|err] eqn:Hn; exec
     | ]);
    rewrite rerender_same by reflexivity;
    rewrite settleRendered_idle by reflexivity;
    (eexists; split; [reflexivity|split; [reflexivity|]]);
    intros w' n' Hw' Hn';
    first [ congruence
          | assert (w = w') by congruence; assert (n = n') by congruence;
            subst; reflexivity ].
Qed.

Lemma connect_rejected (fuel : nat) (pb : ProviderBehaviour) (c : Config)
    (e : Ethereum) (err : JsError) :
  ethereum c = Some e ->
  pool c = [] ->
  requestAccounts pb = Rejected err ->
  settle (1 + fuel) pb (runSync connectWallet c)
  = withSt c (applySetter (SetLoading false)
                (applySetter (SetError (Some (connectionMessage err)))
                   (st c))).
Proof.
  intros He Hidle Hacc.
  destruct c as [s eth cb t ts pl un]. simpl in He, Hidle. subst eth pl.
  exec. rewrite Hacc. exec. apply settle_idle. reflexivity.
Qed.


(** Whatever the provider answers, a call leaves the clock, the timers,
    the clipboard and the log of uncaught exceptions as they were, and
    the pool empty. *)
Lemma connect_confined (fuel : nat) (pb : ProviderBehaviour) (c : Config) :
  pool c = [] ->
  exists (s' : State) (e' : option Ethereum),
    settle (3 + fuel) pb (runSync connectWallet c)
    = withEthereum (withSt c s') e'.
Proof.
  intros Hidle.
  destruct c as [s [e|] cb t ts pl un]; simpl in Hidle; subst pl; exec;
    [|eexists; eexists; reflexivity].
  destruct (requestAccounts pb) as [[|first others]|err]; exec;
    [eexists; eexists; reflexivity| |eexists; eexists; reflexivity].
  destruct (getBalance pb first) as [w|err]; exec.
  - destruct (getNetwork pb) as [n|err]; exec;
      rewrite settle_idle by reflexivity; (eexists; eexists; reflexivity).
  - destruct fuel; (eexists; eexists; reflexivity).
Qed.

Lemma fetch_confined (fuel : nat) (pb : ProviderBehaviour) (c : Config)
    (a : string) :
  pool c = [] ->
  exists s' : State,
    settle (2 + fuel) pb (runSync (fetchWalletData a) c) = withSt c s'.
Proof.
  intros Hidle.
  destruct c as [s [e|] cb t ts pl un]; simpl in Hidle; subst pl; exec;
    [|eexists; reflexivity].
  destruct (getBalance pb a) as [w|err]; exec.
  - destruct (getNetwork pb) as [n|err]; exec;
      rewrite settle_idle by reflexivity; (eexists; reflexivity).
  - destruct fuel; (eexists; reflexivity).
Qed.

End Outcomes.

(** X6.  A refresh the provider answers ends with the error cleared,
    the loading flag off, the network the provider reports, its id being
    the Number of the chain id (the nearest double, so the chain id
    itself up to [2^53]), and, as balance, the first six characters of
    the formatted amount (all of it when it is shorter); the address and
    the menu are untouched. *)
Theorem fetchWalletData_success :
  forall (fuel : nat) (pb : ProviderBehaviour) (c : Config) (e : Ethereum)
         (a : string) (w : Z) (n : ProviderNetwork),
    2 <= fuel ->
    ethereum c = Some e ->
    pool c = [] ->
    getBalance pb a = Resolved w ->
    getNetwork pb = Resolved n ->
    settle fuel pb (runSync (fetchWalletData a) c)
    = withSt c {| walletAddress := walletAddress (st c);
                  error := None;
                  anchorEl := anchorEl (st c);
                  copied := copied (st c);
                  balance := Some (displayBalance w);
                  network := Some {| id := Js.ofInteger (chainId n);
                                     name := netName n |};
                  loading := false |} /\
    String.length (displayBalance w)
    = Nat.min 6 (String.length (formatEther w)) /\
    exists rest : string, formatEther w = displayBalance w ++ rest.
Proof.
  intros fuel pb c e a w n Hfuel He Hidle Hb Hn.
  destruct fuel as [|[|fuel]]; try lia.
  change (S (S fuel)) with (2 + fuel).
  split; [exact (fetch_resolved fuel pb c a Hidle e w n He Hb Hn)|].
  destruct (substring_prefix_6 (formatEther w)) as (rest & Hrest & Hlen).
  split; [exact Hlen|]. exists rest. exact Hrest.
Qed.

Lemma fetchWalletData_success_witness :
  settle 2 grantsOne
    (runSync (fetchWalletData "0xABCD00000000000000000000000000000000EF01")
       (mounted (Some freshEthereum)))
  = withSt (mounted (Some freshEthereum))
      {| walletAddress := None; error := None; anchorEl := None;
         copied := false; balance := Some "1.0";
         network := Some {| id := Js.Num 1; name := "mainnet" |};
         loading := false |} /\
  network (st (settle 2 grantsOneFarChain
                 (runSync
                    (fetchWalletData "0xABCD00000000000000000000000000000000EF01")
                    (mounted (Some freshEthereum)))))
  = Some {| id := Js.Num 9007199254740992; name := "devnet" |}.
Proof.
  split.
  - exact (proj1 (fetchWalletData_success 2 grantsOne
                    (mounted (Some freshEthereum)) freshEthereum
                    "0xABCD00000000000000000000000000000000EF01" (10 ^ 18)%Z
                    {| chainId := 1; netName := "mainnet" |}
                    (le_n 2) eq_refl eq_refl eq_refl eq_refl)).
  - rewrite (proj1 (fetchWalletData_success 2 grantsOneFarChain
                      (mounted (Some freshEthereum)) freshEthereum
                      "0xABCD00000000000000000000000000000000EF01" (10 ^ 18)%Z
                      {| chainId := 9007199254740993; netName := "devnet" |}
                      (le_n 2) eq_refl eq_refl eq_refl eq_refl)).
    reflexivity.
Defined.

(** X7.  In the running component, when the provider grants accounts
    and answers the refresh, [connectWallet] ends with the first account
    as address (the others are ignored), the balance of the provider and
    its network, the id being the Number of the chain id, no error and
    the loading flag off.  When the address changed, the chain effect
    has replaced its listener by the one of the new address, and the two
    listeners of [connectWallet] are appended after it; clock, timers,
    clipboard and menu are untouched and no exception escapes. *)
Theorem connectWallet_success :
  forall (fuel : nat) (pb : ProviderBehaviour) (c : Config) (e : Ethereum)
         (first : string) (others : list string) (w : Z)
         (n : ProviderNetwork),
    3 <= fuel ->
    ethereum c = Some e ->
    pool c = [] ->
    requestAccounts pb = Resolved (first :: others) ->
    getBalance pb first = Resolved w ->
    getNetwork pb = Resolved n ->
    settleRendered fuel pb (rendered (runSync connectWallet) c)
    = withEthereum
        (withSt c {| walletAddress := Some first;
                     error := None;
                     anchorEl := anchorEl (st c);
                     copied := copied (st c);
                     balance := Some (displayBalance w);
                     network := Some {| id := Js.ofInteger (chainId n);
                                        name := netName n |};
                     loading := false |})
        (Some (withConnectListeners
                 (effectSwapped (walletAddress (st c)) (Some first) e))).
Proof.
  intros fuel pb c e first others w n Hfuel He Hidle Hacc Hb Hn.
  destruct fuel as [|[|[|fuel]]]; try lia.
  change (S (S (S fuel))) with (3 + fuel).
  destruct (connect_granted_rendered fuel pb c e first others He Hidle Hacc)
    as (s' & -> & _ & Hs).
  rewrite (Hs w n Hb Hn).
  destruct c as [s eth cb t ts pl un]. simpl in He, Hidle. subst eth pl.
  reflexivity.
Qed.

Lemma connectWallet_success_witness :
  st (settleRendered 3 grantsOne
        (rendered (runSync connectWallet)
           (runSync (chainEffect None) (mounted (Some freshEthereum)))))
  = {| walletAddress := Some "0xABCD00000000000000000000000000000000EF01";
       error := None; anchorEl := None; copied := false;
       balance := Some "1.0";
       network := Some {| id := Js.Num 1; name := "mainnet" |};
       loading := false |} /\
  ethereum (settleRendered 3 grantsOne
              (rendered (runSync connectWallet)
                 (runSync (chainEffect None) (mounted (Some freshEthereum)))))
  = Some {| selectedAddress := None;
            accountsChanged := [ConnAccountsChanged];
            chainChanged :=
              [HandleChainChanged
                 (Some "0xABCD00000000000000000000000000000000EF01");
               ConnChainChanged] |}.
Proof.
  rewrite (connectWallet_success 3 grantsOne
             (runSync (chainEffect None) (mounted (Some freshEthereum)))
             {| selectedAddress := None;
                accountsChanged := [];
                chainChanged := [HandleChainChanged None] |}
             "0xABCD00000000000000000000000000000000EF01" []
             (10 ^ 18)%Z {| chainId := 1; netName := "mainnet" |}
             (le_n 3) eq_refl eq_refl eq_refl eq_refl eq_refl).
  split; reflexivity.
Defined.

(** X8.  When the account request is refused, [connectWallet] shows the
    message of the error it caught, or "Unknown error" when what was
    thrown is no [Error]; it clears the loading flag and changes nothing
    else: the session, the listeners and the menu stay as they were. *)
Theorem connectWallet_request_rejected :
  forall (fuel : nat) (pb : ProviderBehaviour) (c : Config) (e : Ethereum)
         (err : JsError),
    1 <= fuel ->
    ethereum c = Some e ->
    pool c = [] ->
    requestAccounts pb = Rejected err ->
    settle fuel pb (runSync connectWallet c)
    = withSt c {| walletAddress := walletAddress (st c);
                  error := Some (connectionMessage err);
                  anchorEl := anchorEl (st c);
                  copied := copied (st c);
                  balance := balance (st c);
                  network := network (st c);
                  loading := false |} /\
    connectionMessage Thrown = "Unknown error" /\
    forall message : string, connectionMessage (ErrorObj message) = message.
Proof.
  intros fuel pb c e err Hfuel He Hidle Hacc.
  destruct fuel as [|fuel]; [lia|].
  split; [|split; reflexivity].
  exact (connect_rejected fuel pb c e err He Hidle Hacc).
Qed.

Lemma connectWallet_request_rejected_witness :
  settle 1 userRejects (runSync connectWallet (mounted (Some freshEthereum)))
  = withSt (mounted (Some freshEthereum))
      {| walletAddress := None;
         error := Some "User rejected the request.";
         anchorEl := None; copied := false; balance := None; network := None;
         loading := false |}.
Proof.
  exact (proj1 (connectWallet_request_rejected 1 userRejects
                  (mounted (Some freshEthereum)) freshEthereum
                  (ErrorObj "User rejected the request.")
                  (le_n 1) eq_refl eq_refl eq_refl)).
Defined.



(** X10.  Whatever the provider answers, and with or without a
    provider, a call of [fetchWalletData] or [connectWallet] started
    when no call is in flight lets no exception escape and touches
    neither the clipboard nor the timers; [fetchWalletData] leaves the
    provider and its listeners alone as well. *)
Theorem calls_are_confined :
  forall (pb : ProviderBehaviour) (c : Config),
    pool c = [] ->
    (forall (fuel : nat) (a : string),
       2 <= fuel ->
       uncaught (settle fuel pb (runSync (fetchWalletData a) c)) = uncaught c /\
       clipboard (settle fuel pb (runSync (fetchWalletData a) c))
       = clipboard c /\
       timers (settle fuel pb (runSync (fetchWalletData a) c)) = timers c /\
       ethereum (settle fuel pb (runSync (fetchWalletData a) c))
       = ethereum c) /\
    (forall fuel : nat,
       3 <= fuel ->
       uncaught (settle fuel pb (runSync connectWallet c)) = uncaught c /\
       clipboard (settle fuel pb (runSync connectWallet c)) = clipboard c /\
       timers (settle fuel pb (runSync connectWallet c)) = timers c).
Proof.
  intros pb c Hidle. split.
  - intros fuel a Hfuel. destruct fuel as [|[|fuel]]; try lia.
    destruct (fetch_confined fuel pb c a Hidle) as (s' & Hrun).
    change (S (S fuel)) with (2 + fuel). rewrite Hrun.
    repeat split; reflexivity.
  - intros fuel Hfuel. destruct fuel as [|[|[|fuel]]]; try lia.
    destruct (connect_confined fuel pb c Hidle) as (s' & e' & Hrun).
    change (S (S (S fuel))) with (3 + fuel). rewrite Hrun.
    repeat split; reflexivity.
Qed.

Lemma calls_are_confined_witness :
  pool (mounted None) = [] /\
  uncaught (settle 3 userRejects (runSync connectWallet (mounted None))) = [] /\
  uncaught (settle 2 balanceFails
              (runSync (fetchWalletData
                          "0xABCD00000000000000000000000000000000EF01")
                 connectedConfig)) = [].
Proof.
  split; [reflexivity|].
  destruct (calls_are_confined userRejects (mounted None) eq_refl)
    as (_ & Hconnect).
  destruct (calls_are_confined balanceFails connectedConfig eq_refl)
    as (Hfetch & _).
  split.
  - exact (proj1 (Hconnect 3 (le_n 3))).
  - exact (proj1 (Hfetch 2 "0xABCD00000000000000000000000000000000EF01"
                    (le_n 2))).
Defined.

(** ** Provider events *)

Section AccountEvents.

Lemma adopting_twice (first : string) (s : State) :
  adopting first (adopting first s) = adopting first s.
Proof. reflexivity. Qed.

Lemma accountsListener_adopts (h : AccountsListener) (first : string)
    (others : list string) (c : Config) (e : Ethereum) :
  ethereum c = Some e ->
  exists k,
    runSync (accountsListener h (first :: others)) c
    = suspend (withSt c (adopting first (st c))) (WaitGetBalance first k).
Proof.
  intros He. destruct h.
  destruct c as [s eth cb t ts pl un]. simpl in He. subst eth.
  eexists. reflexivity.
Qed.

Lemma accountsListeners_adopt (first : string) (others : list string)
    (l : list AccountsListener) :
  forall (c : Config) (e : Ethereum),
    ethereum c = Some e ->
    exists added : list Suspended,
      fold_left (fun c' h => runSync (accountsListener h (first :: others)) c')
        l c
      = withPool (withSt c (match l with
                            | [] => st c
                            | _ => adopting first (st c)
                            end))
          (pool c ++ added) /\
      length added = length l /\
      Forall (awaitsBalanceOf first) added.
Proof.
  induction l as [|h l IH]; intros c e He; cbn [fold_left].
  - exists []. rewrite app_nil_r. destruct c. repeat split. constructor.
  - destruct (accountsListener_adopts h first others c e He) as (k & Hrun).
    rewrite Hrun.
    destruct (IH (suspend (withSt c (adopting first (st c)))
                    (WaitGetBalance first k)) e)
      as (added & Hfold & Hlen & Hall).
    { destruct c; exact He. }
    exists (WaitGetBalance first k :: added). rewrite Hfold.
    split; [|split].
    + destruct c as [s eth cb t ts pl un]. unfold suspend, withPool, withSt.
      cbn. rewrite <- app_assoc. destruct l; reflexivity.
    + simpl. now rewrite Hlen.
    + constructor; [reflexivity|exact Hall].
Qed.

End AccountEvents.

(** X11.  An [accountsChanged] event with accounts makes every
    registered listener adopt the first account and start a refresh of
    its own: with [k] listeners registered, [k] balance requests for
    that account are added to the calls in flight, the loading flag is
    on, and the provider and its listeners are as before. *)
Theorem accountsChanged_starts_a_refresh_per_listener :
  forall (c : Config) (e : Ethereum) (first : string) (others : list string),
    ethereum c = Some e ->
    exists added : list Suspended,
      pool (emitAccountsChanged (first :: others) c) = (pool c ++ added)%list /\
      length added = length (accountsChanged e) /\
      Forall (awaitsBalanceOf first) added /\
      ethereum (emitAccountsChanged (first :: others) c) = Some e /\
      (accountsChanged e <> [] ->
       st (emitAccountsChanged (first :: others) c) = adopting first (st c) /\
       walletAddress (st (emitAccountsChanged (first :: others) c))
       = Some first /\
       loading (st (emitAccountsChanged (first :: others) c)) = true).
Proof.
  intros c e first others He. unfold emitAccountsChanged. rewrite He.
  destruct (accountsListeners_adopt first others (accountsChanged e) c e He)
    as (added & Hfold & Hlen & Hall).
  exists added. rewrite Hfold.
  split; [reflexivity|]. split; [exact Hlen|]. split; [exact Hall|].
  split; [destruct c; exact He|].
  intros Hne. destruct (accountsChanged e); [congruence|].
  repeat split; reflexivity.
Qed.

Lemma accountsChanged_starts_a_refresh_per_listener_witness :
  exists added : list Suspended,
    pool (emitAccountsChanged ["0x1111"; "0x2222"]
            (connectTimes 3 [grantsOne; grantsOne]
               (mounted (Some freshEthereum))))
    = added /\
    length added = 2 /\
    Forall (awaitsBalanceOf "0x1111") added.
Proof.
  destruct (accountsChanged_starts_a_refresh_per_listener
              (connectTimes 3 [grantsOne; grantsOne]
                 (mounted (Some freshEthereum)))
              {| selectedAddress := None;
                 accountsChanged := [ConnAccountsChanged; ConnAccountsChanged];
                 chainChanged := [ConnChainChanged; ConnChainChanged] |}
              "0x1111" ["0x2222"] eq_refl)
    as (added & Hpool & Hlen & Hall & _).
  exists added. split; [exact Hpool|]. split; [exact Hlen|exact Hall].
Defined.

Section ChainEvents.

Lemma connect_chain_listeners_run (chainIdHex : string)
    (l : list ChainListener) :
  Forall (fun h => h = ConnChainChanged) l ->
  l <> [] ->
  forall c : Config,
    fold_left (fun c' h => runSync (chainListener h chainIdHex) c') l c
    = withSt c (applySetter (SetNetwork (Some (unknownNetwork chainIdHex)))
                  (st c)).
Proof.
  induction l as [|h l IH]; intros Hall Hne c; [congruence|].
  inversion Hall as [|? ? Hh Hl]; subst. cbn [fold_left].
  destruct l as [|h' l'].
  - reflexivity.
  - rewrite (IH Hl ltac:(discriminate)). destruct c; reflexivity.
Qed.

End ChainEvents.

(** X12.  Listeners of [connectWallet] piled up for [chainChanged] do
    no more than one does: with only such listeners registered, however
    many, the event sets the synthesized network once and starts no
    request. *)
Theorem chainChanged_connect_listeners_idempotent :
  forall (c : Config) (e : Ethereum) (chainIdHex : string),
    ethereum c = Some e ->
    onlyConnectChainListeners e ->
    chainChanged e <> [] ->
    emitChainChanged chainIdHex c
    = withSt c (applySetter (SetNetwork (Some (unknownNetwork chainIdHex)))
                  (st c)) /\
    pool (emitChainChanged chainIdHex c) = pool c.
Proof.
  intros c e chainIdHex He Honly Hne.
  assert (Hrun : emitChainChanged chainIdHex c
                 = withSt c (applySetter
                               (SetNetwork (Some (unknownNetwork chainIdHex)))
                               (st c))).
  { unfold emitChainChanged. rewrite He.
    apply connect_chain_listeners_run; assumption. }
  rewrite Hrun. split; reflexivity.
Qed.

Lemma chainChanged_connect_listeners_idempotent_witness :
  network (st (emitChainChanged "0x89"
                 (connectTimes 3 [grantsOne; grantsOne; grantsOne]
                    (mounted (Some freshEthereum)))))
  = Some {| id := Js.Num 137; name := "Unknown Network (137)" |} /\
  pool (emitChainChanged "0x89"
          (connectTimes 3 [grantsOne; grantsOne; grantsOne]
             (mounted (Some freshEthereum)))) = [].
Proof.
  assert (Honly : onlyConnectChainListeners
                    {| selectedAddress := None;
                       accountsChanged := repeat ConnAccountsChanged 3;
                       chainChanged := repeat ConnChainChanged 3 |})
    by (repeat constructor).
  assert (Hne : chainChanged
                  {| selectedAddress := None;
                     accountsChanged := repeat ConnAccountsChanged 3;
                     chainChanged := repeat ConnChainChanged 3 |} <> [])
    by discriminate.
  destruct (chainChanged_connect_listeners_idempotent
              (connectTimes 3 [grantsOne; grantsOne; grantsOne]
                 (mounted (Some freshEthereum)))
              _ "0x89" eq_refl Honly Hne) as (Hrun & Hpool).
  split; [rewrite Hrun; reflexivity|exact Hpool].
Defined.

(** ** Calls that overlap *)



(** X14.  The loading flag can be off while a call is in flight: of two
    refreshes started one after the other, the one that ends first
    clears the flag while the other still waits for the provider,
    whatever the provider answers. *)
Theorem loading_cleared_by_the_first_refresh_to_end :
  forall (pb : ProviderBehaviour) (c : Config) (e : Ethereum) (a1 a2 : string),
    ethereum c = Some e ->
    pool c = [] ->
    exists fuel : nat,
      fuel <= 3 /\
      loading (st (settle fuel pb
                     (runSync (fetchWalletData a2)
                        (runSync (fetchWalletData a1) c)))) = false /\
      pool (settle fuel pb
              (runSync (fetchWalletData a2)
                 (runSync (fetchWalletData a1) c))) <> [].
Proof.
  intros pb c e a1 a2 He Hidle.
  destruct c as [s eth cb t ts pl un]. simpl in He, Hidle. subst eth pl.
  run_first (runSync (fetchWalletData a1)
               {| st := s; ethereum := Some e; clipboard := cb;
                  now := t; timers := ts; pool := [];
                  uncaught := un |}).
  match goal with
  | |- context [runSync (fetchWalletData a2) ?c] =>
      run_first (runSync (fetchWalletData a2) c)
  end.
  destruct (getBalance pb a1) as [w1|err1] eqn:H1.
  - destruct (getBalance pb a2) as [w2|err2] eqn:H2.
    + exists 3. split; [lia|]. exec. rewrite H1. exec. rewrite H2. exec.
      destruct (getNetwork pb) as [n|err]; exec;
        (split; [reflexivity|discriminate]).
    + exists 2. split; [lia|]. exec. rewrite H1. exec. rewrite H2. exec.
      split; [reflexivity|discriminate].
  - exists 1. split; [lia|]. exec. rewrite H1. exec.
    split; [reflexivity|discriminate].
Qed.

Lemma loading_cleared_by_the_first_refresh_to_end_witness :
  loading (st (settle 3 grantsOne
                 (runSync (fetchWalletData "0x2222")
                    (runSync (fetchWalletData "0x1111") connectedConfig))))
  = false /\
  length (pool (settle 3 grantsOne
                  (runSync (fetchWalletData "0x2222")
                     (runSync (fetchWalletData "0x1111") connectedConfig))))
  = 1 /\
  exists fuel : nat,
    fuel <= 3 /\
    loading (st (settle fuel grantsOne
                   (runSync (fetchWalletData "0x2222")
                      (runSync (fetchWalletData "0x1111") connectedConfig))))
    = false /\
    pool (settle fuel grantsOne
            (runSync (fetchWalletData "0x2222")
               (runSync (fetchWalletData "0x1111") connectedConfig))) <> [].
Proof.
  split; [reflexivity|]. split; [reflexivity|].
  exact (loading_cleared_by_the_first_refresh_to_end grantsOne connectedConfig
           freshEthereum "0x1111" "0x2222" eq_refl eq_refl).
Defined.

(** ** The effects *)



Section ChainEffect.

Lemma chainListener_eqb_refl (h : ChainListener) : chainListener_eqb h h = true.
Proof.
  destruct h as [[a|]|]; simpl; try reflexivity. apply String.eqb_refl.
Qed.

Lemma removeLatest_last (h : ChainListener) (l : list ChainListener) :
  removeLatest h (l ++ [h]) = l.
Proof.
  unfold removeLatest. rewrite rev_app_distr. cbn [rev app removeFirst].
  rewrite chainListener_eqb_refl. apply rev_involutive.
Qed.

Lemma removeFirst_absent (h : ChainListener) (l : list ChainListener) :
  Forall (fun x => chainListener_eqb x h = false) l -> removeFirst h l = l.
Proof.
  induction 1 as [|x l Hx _ IH]; cbn [removeFirst]; [reflexivity|].
  now rewrite Hx, IH.
Qed.

Lemma removeLatest_absent (h : ChainListener) (l : list ChainListener) :
  Forall (fun x => chainListener_eqb x h = false) l -> removeLatest h l = l.
Proof.
  intros Hall. unfold removeLatest.
  rewrite removeFirst_absent; [apply rev_involutive|].
  apply Forall_rev. exact Hall.
Qed.

End ChainEffect.

(** X16.  The chain effect and its cleanup undo each other: after
    both, the provider holds the listeners it held before.  When the
    address changes from one render to the next, the listener of the
    old render is replaced by the listener of the new one, so the effect
    never piles up listeners; and a cleanup takes none of the listeners
    of [connectWallet] away. *)
Theorem chainEffect_cleanup_round_trip :
  forall (c : Config) (a : option string),
    runSync (chainEffectCleanup a) (runSync (chainEffect a) c) = c /\
    (forall (e : Ethereum) (b : option string),
       ethereum c = Some e ->
       ethereum (runSync (chainEffect b)
                   (runSync (chainEffectCleanup a) (runSync (chainEffect a) c)))
       = Some {| selectedAddress := selectedAddress e;
                 accountsChanged := accountsChanged e;
                 chainChanged := (chainChanged e ++ [HandleChainChanged b])%list |}) /\
    (forall e : Ethereum,
       ethereum c = Some e ->
       onlyConnectChainListeners e ->
       runSync (chainEffectCleanup a) c = c).
Proof.
  intros c a.
  assert (Hround : runSync (chainEffectCleanup a) (runSync (chainEffect a) c)
                   = c).
  { destruct c as [s [e|] cb t ts pl un]; [|reflexivity].
    unfold chainEffect, chainEffectCleanup, withEthereum.
    cbn - [removeLatest]. rewrite removeLatest_last. destruct e; reflexivity. }
  split; [exact Hround|]. split.
  - intros e b He. rewrite Hround.
    destruct c as [s eth cb t ts pl un]. simpl in He. subst eth. reflexivity.
  - intros e He Honly.
    destruct c as [s eth cb t ts pl un]. simpl in He. subst eth.
    unfold chainEffectCleanup, withEthereum. cbn - [removeLatest].
    rewrite removeLatest_absent; [destruct e; reflexivity|].
    unfold onlyConnectChainListeners in Honly.
    eapply Forall_impl; [|exact Honly].
    intros x ->. reflexivity.
Qed.

Lemma chainEffect_cleanup_round_trip_witness :
  ethereum (runSync (chainEffect None)
              (runSync (chainEffectCleanup
                          (Some "0xABCD00000000000000000000000000000000EF01"))
                 afterConnectRendered))
  = Some {| selectedAddress := None;
            accountsChanged := [ConnAccountsChanged];
            chainChanged := [ConnChainChanged; HandleChainChanged None] |} /\
  runSync (chainEffectCleanup None) afterConnect = afterConnect.
Proof.
  destruct (chainEffect_cleanup_round_trip afterConnect
              (Some "0xABCD00000000000000000000000000000000EF01"))
    as (_ & Hreplace & _).
  destruct (chainEffect_cleanup_round_trip afterConnect None)
    as (_ & _ & Hkeep).
  split.
  - exact (Hreplace _ None eq_refl).
  - apply (Hkeep _ eq_refl). repeat constructor.
Defined.

(** ** Disconnecting and the menu *)

(** X17.  [handleDisconnect] closes the menu and leaves the error
    message, the loading flag, the copied indicator, the clipboard, the
    pending timers and the calls in flight as they are.  It removes the
    listeners of both events, the one of the chain effect included, so
    until a listener is registered again the component reacts to no
    provider event. *)
Theorem handleDisconnect_leaves_the_rest :
  forall c : Config,
    menuOpen (st (runSync handleDisconnect c)) = false /\
    error (st (runSync handleDisconnect c)) = error (st c) /\
    loading (st (runSync handleDisconnect c)) = loading (st c) /\
    copied (st (runSync handleDisconnect c)) = copied (st c) /\
    clipboard (runSync handleDisconnect c) = clipboard c /\
    timers (runSync handleDisconnect c) = timers c /\
    pool (runSync handleDisconnect c) = pool c /\
    uncaught (runSync handleDisconnect c) = uncaught c /\
    (forall newAccounts : list string,
       emitAccountsChanged newAccounts (runSync handleDisconnect c)
       = runSync handleDisconnect c) /\
    (forall chainIdHex : string,
       emitChainChanged chainIdHex (runSync handleDisconnect c)
       = runSync handleDisconnect c).
Proof.
  intros c. rewrite handleDisconnect_run.
  destruct c as [s [e|] cb t ts pl un]; repeat split; reflexivity.
Qed.

(** X18.  A click on the wallet summary with an address active opens
    the menu at the clicked element and does nothing else; without an
    address it is a call of [connectWallet].  [handleClose] closes the
    menu and undoes the click. *)
Theorem menu_opens_and_closes :
  forall (c : Config) (a : option string) (target : nat),
    (Js.truthy a = true ->
     runSync (handleClick a target) c
     = withSt c (applySetter (SetAnchorEl (Some target)) (st c)) /\
     menuOpen (st (runSync (handleClick a target) c)) = true /\
     runSync handleClose (runSync (handleClick a target) c)
     = runSync handleClose c) /\
    (Js.truthy a = false ->
     runSync (handleClick a target) c = runSync connectWallet c) /\
    menuOpen (st (runSync handleClose c)) = false /\
    (menuOpen (st c) = false -> runSync handleClose c = c).
Proof.
  intros c a target. split; [|split; [|split]].
  - intros Ha. unfold handleClick. rewrite Ha.
    destruct c; repeat split; reflexivity.
  - intros Ha. unfold handleClick. rewrite Ha. reflexivity.
  - reflexivity.
  - unfold menuOpen. destruct c as [[w er an cp bl nw ld] eth cb t ts pl un].
    cbn. destruct an; [discriminate|]. reflexivity.
Qed.

Lemma menu_opens_and_closes_witness :
  Js.truthy (walletAddress (st connectedConfig)) = true /\
  menuOpen (st (runSync (handleClick (walletAddress (st connectedConfig)) 7)
                  connectedConfig)) = true /\
  runSync handleClose
    (runSync (handleClick (walletAddress (st connectedConfig)) 7)
       connectedConfig)
  = connectedConfig /\
  Js.truthy (walletAddress (st (mounted None))) = false /\
  error (st (runSync (handleClick (walletAddress (st (mounted None))) 7)
               (mounted None)))
  = Some "Please install MetaMask to continue".
Proof.
  destruct (menu_opens_and_closes connectedConfig
              (walletAddress (st connectedConfig)) 7)
    as (Hopen & _ & _ & Hidem).
  destruct (Hopen eq_refl) as (_ & Hmenu & Hclose).
  destruct (menu_opens_and_closes (mounted None)
              (walletAddress (st (mounted None))) 7)
    as (_ & Hconnect & _).
  split; [reflexivity|]. split; [exact Hmenu|].
  split; [rewrite Hclose; exact (Hidem eq_refl)|].
  split; [reflexivity|].
  rewrite (Hconnect eq_refl). reflexivity.
Defined.

(** ** The copied indicator over the life of the component *)

Section CopiedTimed.

Lemma runSync_keepsCopiedTimed (p : Proc) :
  forall (held : bool) (c : Config),
    keepsCopiedTimed held p ->
    (held = true -> copiedOnlyWhileTimed c) ->
    Forall (clearsWithin (now c)) (timers c) ->
    Forall resumesCopiedTimed (pool c) ->
    copiedTimed (runSync p c) /\ now (runSync p c) = now c.
Proof.
  unfold copiedTimed, copiedOnlyWhileTimed.
  induction p as [ | err | u k IH | a IHa b IHb | k IH | op k IH | t k IH
                 | cb IHcb d k IH | k IH | addr k IH | k IH
                 | call IHcall k IH ];
    intros held c Hp Hheld Htimers Hpool; cbn [runSync].
  - split; [|reflexivity]. split; [auto|split; assumption].
  - split; [|reflexivity]. split; [exact (Hheld Hp)|split; assumption].
  - destruct u as [v|v|v|v|v|v|v]; cbn [keepsCopiedTimed] in Hp;
      try (match goal with
           | |- context [applySetter ?u _] =>
               exact (IH held (withSt c (applySetter u (st c)))
                        Hp Hheld Htimers Hpool)
           end).
    refine (IH (negb v) (withSt c (applySetter (SetCopied v) (st c)))
              Hp _ Htimers Hpool).
    destruct v; simpl; [discriminate|]. intros _ Habs. discriminate Habs.
  - destruct Hp as [Ha Hb].
    destruct (ethereum c); [apply (IHa held)|apply (IHb held)]; assumption.
  - apply (IH _ held); [apply Hp|exact Hheld|exact Htimers|exact Hpool].
  - exact (IH held (withEthereum c (option_map (applyEthOp op) (ethereum c)))
             Hp Hheld Htimers Hpool).
  - exact (IH held (withClipboard c (Some t)) Hp Hheld Htimers Hpool).
  - destruct Hp as (Hcb & Hd & Hk).
    destruct (IH true (withClock c (now c) (timers c ++ [(now c + d, cb)])) Hk)
      as (Hinv & Hnow).
    + intros _ _. cbn [withClock timers]. now destruct (timers c).
    + cbn [withClock timers now]. apply Forall_app. split; [exact Htimers|].
      constructor; [|constructor]. split; [exact Hcb|]. cbn [fst]. lia.
    + exact Hpool.
    + split; [exact Hinv|exact Hnow].
  - destruct Hp as [Hh Hk]. split; [|reflexivity].
    split; [exact (Hheld Hh)|]. split; [exact Htimers|].
    cbn [suspend withPool pool]. apply Forall_app. split; [exact Hpool|].
    constructor; [exact Hk|constructor].
  - destruct Hp as [Hh Hk]. split; [|reflexivity].
    split; [exact (Hheld Hh)|]. split; [exact Htimers|].
    cbn [suspend withPool pool]. apply Forall_app. split; [exact Hpool|].
    constructor; [exact Hk|constructor].
  - destruct Hp as [Hh Hk]. split; [|reflexivity].
    split; [exact (Hheld Hh)|]. split; [exact Htimers|].
    cbn [suspend withPool pool]. apply Forall_app. split; [exact Hpool|].
    constructor; [exact Hk|constructor].
  - destruct Hp as [Hcall Hk].
    destruct (IHcall held c Hcall Hheld Htimers Hpool)
      as ((H1 & H2 & H3) & Hnow1).
    destruct (IH true (runSync call c) Hk (fun _ => H1)) as (Hinv & Hnow2).
    + exact H2.
    + exact H3.
    + split; [exact Hinv|]. now rewrite Hnow2.
Qed.

Lemma copiedTimed_runSync (p : Proc) (c : Config) :
  keepsCopiedTimed true p -> copiedTimed c -> copiedTimed (runSync p c).
Proof.
  intros Hp (HJ & Htimers & Hpool).
  apply (runSync_keepsCopiedTimed p true); auto.
Qed.

Lemma fetchWalletData_keepsCopiedTimed (a : string) :
  keepsCopiedTimed true (fetchWalletData a).
Proof. discipline. Qed.

Lemma connectWallet_keepsCopiedTimed : keepsCopiedTimed true connectWallet.
Proof. discipline. Qed.

Lemma operation_keepsCopiedTimed (p : Proc) :
  Operation p -> keepsCopiedTimed true p.
Proof.
  intros [ | | a | a target | | a | | a | a ].
  - discipline.
  - apply connectWallet_keepsCopiedTimed.
  - apply fetchWalletData_keepsCopiedTimed.
  - unfold handleClick. destruct (Js.truthy a); [reflexivity|].
    split; [apply connectWallet_keepsCopiedTimed|reflexivity].
  - reflexivity.
  - unfold copyToClipboard. destruct a as [s|]; [|reflexivity].
    destruct (Js.truthy (Some s)); [|reflexivity].
    cbn. repeat split. lia.
  - discipline.
  - unfold chainEffect. discipline.
  - unfold chainEffectCleanup. discipline.
Qed.

Lemma accountsListener_keepsCopiedTimed (h : AccountsListener)
    (newAccounts : list string) :
  keepsCopiedTimed true (accountsListener h newAccounts).
Proof. destruct h. discipline. Qed.

Lemma chainListener_keepsCopiedTimed (h : ChainListener) (chainIdHex : string) :
  keepsCopiedTimed true (chainListener h chainIdHex).
Proof. destruct h; discipline. Qed.

Lemma copiedTimed_fold {A : Type} (body : A -> Proc) (l : list A) :
  (forall x, keepsCopiedTimed true (body x)) ->
  forall c, copiedTimed c ->
  copiedTimed (fold_left (fun c' x => runSync (body x) c') l c).
Proof.
  intros Hbody. induction l as [|x l IH]; intros c Hc; cbn [fold_left].
  - exact Hc.
  - apply IH. apply copiedTimed_runSync; [apply Hbody|exact Hc].
Qed.

(** Timers that clear the indicator, fired in turn. *)
Lemma fire_clearing_timers (due : list (nat * Proc)) :
  Forall (fun x => snd x = clearCopied) due ->
  forall c : Config,
    fold_left (fun c' x => runSync (snd x) c') due c
    = match due with
      | [] => c
      | _ => withSt c (applySetter (SetCopied false) (st c))
      end.
Proof.
  induction 1 as [|x due Hx _ IH]; intros c; cbn [fold_left]; [reflexivity|].
  rewrite Hx, IH. destruct due; destruct c; reflexivity.
Qed.

Lemma filter_all {A : Type} (f : A -> bool) (l : list A) :
  Forall (fun x => f x = true) l -> filter f l = l.
Proof.
  induction 1 as [|x l Hx _ IH]; cbn [filter]; [reflexivity|].
  now rewrite Hx, IH.
Qed.

Lemma filter_none {A : Type} (f : A -> bool) (l : list A) :
  Forall (fun x => f x = true) l -> filter (fun x => negb (f x)) l = [].
Proof.
  induction 1 as [|x l Hx _ IH]; cbn [filter]; [reflexivity|].
  now rewrite Hx, IH.
Qed.

Lemma filter_split_nil {A : Type} (f : A -> bool) (l : list A) :
  filter f l = [] -> filter (fun x => negb (f x)) l = l.
Proof.
  induction l as [|x l IH]; cbn [filter]; [reflexivity|].
  destruct (f x); [discriminate|]. intros H. cbn [negb]. now rewrite IH.
Qed.

Lemma copiedTimed_advance (dt : nat) (c : Config) :
  copiedTimed c -> copiedTimed (advance dt c).
Proof.
  intros (HJ & Htimers & Hpool). unfold advance.
  set (t := now c + dt).
  set (due := filter (fun x => (fst x <=? t)%nat) (timers c)).
  set (later := filter (fun x => negb (fst x <=? t)%nat) (timers c)).
  assert (Hdue : Forall (fun x => snd x = clearCopied) due).
  { apply Forall_filter_keeps. eapply Forall_impl; [|exact Htimers].
    intros x [Hx _]. exact Hx. }
  assert (Hlater : Forall (clearsWithin t) later).
  { apply Forall_filter_keeps. eapply Forall_impl; [|exact Htimers].
    intros x [Hx Hd]. split; [exact Hx|]. unfold t. lia. }
  rewrite (fire_clearing_timers due Hdue).
  destruct due as [|x due'] eqn:Edue.
  - split; [|split].
    + unfold copiedOnlyWhileTimed. cbn [withClock st timers]. intros Hc.
      unfold later. rewrite (filter_split_nil _ _ Edue). exact (HJ Hc).
    + exact Hlater.
    + exact Hpool.
  - split; [|split].
    + unfold copiedOnlyWhileTimed. destruct c. cbn. discriminate.
    + destruct c. exact Hlater.
    + destruct c. exact Hpool.
Qed.

Lemma step_copiedTimed (c c' : Config) :
  step c c' -> copiedTimed c -> copiedTimed c'.
Proof.
  intros Hstep Hc. destruct Hstep as [p c Hop | accts c | chainIdHex c
                                     | before after s pb c Hsplit | dt c | e c].
  - apply copiedTimed_runSync; [apply operation_keepsCopiedTimed|]; assumption.
  - unfold emitAccountsChanged. destruct (ethereum c) as [e|]; [|exact Hc].
    apply (copiedTimed_fold (fun h => accountsListener h accts)); [|exact Hc].
    intros h. apply accountsListener_keepsCopiedTimed.
  - unfold emitChainChanged. destruct (ethereum c) as [e|]; [|exact Hc].
    apply (copiedTimed_fold (fun h => chainListener h chainIdHex)); [|exact Hc].
    intros h. apply chainListener_keepsCopiedTimed.
  - destruct Hc as (HJ & Htimers & Hpool).
    rewrite Hsplit in Hpool. apply Forall_app in Hpool.
    destruct Hpool as [Hbefore Hrest].
    inversion Hrest as [|? ? Hs Hafter]; subst.
    assert (Hpool' : Forall resumesCopiedTimed
                       (pool (withPool c (before ++ after))))
      by (cbn [withPool pool]; apply Forall_app; split; assumption).
    destruct s as [k | addr k | k]; cbn [resumeWith];
      apply (runSync_keepsCopiedTimed _ true);
      try apply Hs; try (intros _; exact HJ); assumption.
  - apply copiedTimed_advance. exact Hc.
  - exact Hc.
Qed.

Lemma reachable_copiedTimed (e : option Ethereum) (c : Config) :
  reachable e c -> copiedTimed c.
Proof.
  induction 1 as [|c c' _ IH Hstep].
  - split; [discriminate|]. split; constructor.
  - exact (step_copiedTimed c c' Hstep IH).
Qed.

End CopiedTimed.

(** X19.  Whatever the user, the provider and the clock do after the
    component is mounted, the copied indicator is on only while a timer
    that clears it is pending, and every pending timer clears it and is
    due within 2000 ms; so once 2000 ms pass without an event, the
    indicator is off and no timer is left. *)
Theorem copied_is_cleared_within_2000ms :
  forall (e : option Ethereum) (c : Config),
    reachable e c ->
    (copied (st c) = true -> timers c <> []) /\
    Forall (clearsWithin (now c)) (timers c) /\
    (forall dt : nat,
       2000 <= dt ->
       copied (st (advance dt c)) = false /\ timers (advance dt c) = []).
Proof.
  intros e c Hreach.
  destruct (reachable_copiedTimed e c Hreach) as (HJ & Htimers & _).
  split; [exact HJ|]. split; [exact Htimers|].
  intros dt Hdt. unfold advance.
  assert (Hall : Forall (fun x => (fst x <=? now c + dt)%nat = true) (timers c)).
  { eapply Forall_impl; [|exact Htimers].
    intros x [_ Hx]. apply Nat.leb_le. lia. }
  rewrite (filter_all _ _ Hall), (filter_none _ _ Hall).
  rewrite fire_clearing_timers.
  - destruct (timers c) as [|x l] eqn:Et.
    + split; [|reflexivity]. cbn [withClock st].
      destruct (copied (st c)) eqn:Hc; [|reflexivity].
      elim (HJ Hc). exact Et.
    + split; reflexivity.
  - eapply Forall_impl; [|exact Htimers]. intros x [Hx _]. exact Hx.
Qed.

Lemma copied_is_cleared_within_2000ms_witness :
  reachable None
    (copyAddress "0xABCD00000000000000000000000000000000EF01" (mounted None)) /\
  copied (st (copyAddress "0xABCD00000000000000000000000000000000EF01"
                (mounted None))) = true /\
  copied (st (advance 2000
                (copyAddress "0xABCD00000000000000000000000000000000EF01"
                   (mounted None)))) = false.
Proof.
  assert (Hreach : reachable None
                     (copyAddress "0xABCD00000000000000000000000000000000EF01"
                        (mounted None))).
  { apply (ReachStep _ (mounted None)); [apply ReachMounted|].
    apply StepStart. apply OpCopyToClipboard. }
  destruct (copied_is_cleared_within_2000ms None _ Hreach) as (_ & _ & Hclear).
  split; [exact Hreach|]. split; [reflexivity|].
  exact (proj1 (Hclear 2000 (le_n 2000))).
Defined.

(** ** The widget along a connection *)

(** X20.  While the account request of [connectWallet] is pending the
    widget is the spinner, so neither the button nor the menu can be
    used.  After a granted connection with a non-empty first account
    and an answered refresh it is the account summary: the balance cut
    to six characters followed by " ETH", the network name of the
    provider, characters 2 and 3 of the address in the avatar, the
    shortened address in the menu.  Without a provider, a connect leaves
    the button and the error box with the message to install MetaMask;
    after a disconnect, unless a call is loading, the button is back. *)
Theorem widget_along_a_connection :
  forall (c : Config),
    pool c = [] ->
    (forall e : Ethereum,
       ethereum c = Some e ->
       renderWallet (st (runSync connectWallet c)) = Spinner) /\
    (forall (fuel : nat) (pb : ProviderBehaviour) (e : Ethereum)
            (first : string) (others : list string) (w : Z)
            (n : ProviderNetwork),
       3 <= fuel ->
       ethereum c = Some e ->
       first <> "" ->
       requestAccounts pb = Resolved (first :: others) ->
       getBalance pb first = Resolved w ->
       getNetwork pb = Resolved n ->
       renderWallet (st (settle fuel pb (runSync connectWallet c)))
       = Account {| summaryBalance := displayBalance w ++ " ETH";
                    summaryNetwork := netName n;
                    avatarText := Js.substring first 2 (Some 4%Z);
                    menuIsOpen := menuOpen (st c);
                    menuNetwork := netName n;
                    menuBalance := displayBalance w ++ " ETH";
                    copyLabel := if copied (st c) then "Copied!"
                                 else "Copy Address";
                    shownAddress := shortenAddress first |} /\
       renderError (st (settle fuel pb (runSync connectWallet c))) = None) /\
    (ethereum c = None ->
     walletAddress (st c) = None ->
     renderWallet (st (runSync connectWallet c)) = ConnectButton /\
     renderError (st (runSync connectWallet c))
     = Some "Please install MetaMask to continue") /\
    (loading (st c) = false ->
     renderWallet (st (runSync handleDisconnect c)) = ConnectButton).
Proof.
  intros c Hidle. split; [|split; [|split]].
  - intros e He. destruct c as [s eth cb t ts pl un]. simpl in He. subst eth.
    reflexivity.
  - intros fuel pb e first others w n Hfuel He Hfirst Hacc Hb Hn.
    destruct fuel as [|[|[|fuel]]]; try lia.
    change (S (S (S fuel))) with (3 + fuel).
    rewrite (connect_resolved fuel pb c e first others w n He Hidle Hacc Hb Hn).
    destruct first as [|ch first]; [congruence|].
    split; reflexivity.
  - intros Hnone Hw. destruct c as [s eth cb t ts pl un].
    simpl in Hnone, Hw. subst eth. unfold renderWallet. cbn.
    rewrite Hw. split; reflexivity.
  - intros Hl. rewrite handleDisconnect_run.
    unfold renderWallet. cbn. rewrite Hl. reflexivity.
Qed.

Lemma widget_along_a_connection_witness :
  renderWallet (st (runSync connectWallet (mounted (Some freshEthereum))))
  = Spinner /\
  renderWallet (st (settle 3 grantsOne
                      (runSync connectWallet (mounted (Some freshEthereum)))))
  = Account {| summaryBalance := "1.0 ETH";
               summaryNetwork := "mainnet";
               avatarText := "AB";
               menuIsOpen := false;
               menuNetwork := "mainnet";
               menuBalance := "1.0 ETH";
               copyLabel := "Copy Address";
               shownAddress := "0xAB...EF01" |} /\
  renderError (st (runSync connectWallet (mounted None)))
  = Some "Please install MetaMask to continue".
Proof.
  assert (Ha : "0xABCD00000000000000000000000000000000EF01" <> "")
    by discriminate.
  destruct (widget_along_a_connection (mounted (Some freshEthereum)) eq_refl)
    as (Hspin & Hacct & _).
  destruct (widget_along_a_connection (mounted None) eq_refl)
    as (_ & _ & Hmissing & _).
  split; [exact (Hspin freshEthereum eq_refl)|].
  split.
  - exact (proj1 (Hacct 3 grantsOne freshEthereum
                    "0xABCD00000000000000000000000000000000EF01" []
                    (10 ^ 18)%Z {| chainId := 1; netName := "mainnet" |}
                    (le_n 3) eq_refl Ha eq_refl eq_refl eq_refl)).
  - exact (proj2 (Hmissing eq_refl eq_refl)).
Defined.

(** ** Reconnecting and switching accounts *)

(** X21.  A disconnect ends the piling up of listeners.  In the
    running component, however many listeners were registered, a granted
    [connectWallet] after [handleDisconnect] leaves one [accountsChanged]
    listener, the one of [connectWallet], and two [chainChanged]
    listeners: the one of the chain effect for the new address and,
    after it, the one of [connectWallet]. *)
Theorem connect_after_disconnect_resets_listeners :
  forall (fuel : nat) (pb : ProviderBehaviour) (c : Config) (e : Ethereum)
         (first : string) (others : list string),
    3 <= fuel ->
    ethereum c = Some e ->
    pool c = [] ->
    requestAccounts pb = Resolved (first :: others) ->
    ethereum (settleRendered fuel pb
                (rendered (runSync connectWallet)
                   (rendered (runSync handleDisconnect) c)))
    = Some {| selectedAddress := selectedAddress e;
              accountsChanged := [ConnAccountsChanged];
              chainChanged := [HandleChainChanged (Some first);
                               ConnChainChanged] |}.
Proof.
  intros fuel pb c e first others Hfuel He Hidle Hacc.
  destruct fuel as [|[|[|fuel]]]; try lia.
  change (S (S (S fuel))) with (3 + fuel).
  assert (Hd : exists e' : Ethereum,
             ethereum (rendered (runSync handleDisconnect) c) = Some e' /\
             pool (rendered (runSync handleDisconnect) c) = [] /\
             walletAddress (st (rendered (runSync handleDisconnect) c)) = None /\
             selectedAddress e' = selectedAddress e /\
             accountsChanged e' = [] /\
             (chainChanged e' = [] \/ chainChanged e' = [HandleChainChanged None])).
  { unfold rendered. rewrite handleDisconnect_run.
    destruct c as [s eth cb t ts pl un]. simpl in He, Hidle. subst eth pl.
    destruct s as [[a|] er an cp bal net ld]; unfold rerender; exec;
      (eexists; split; [reflexivity|]); repeat split; auto. }
  destruct Hd as (e' & He' & Hidle' & Hw' & Hsel & Hacs & Hchs).
  destruct (connect_granted_rendered fuel pb
              (rendered (runSync handleDisconnect) c) e' first others
              He' Hidle' Hacc) as (s' & -> & _).
  cbn [ethereum]. rewrite Hw'. f_equal.
  unfold effectSwapped, withConnectListeners. cbn [option_string_eqb].
  destruct e' as [sel acs chs]. cbn in Hsel, Hacs, Hchs. subst sel acs.
  destruct Hchs as [-> | ->]; reflexivity.
Qed.

Lemma connect_after_disconnect_resets_listeners_witness :
  option_map (fun e => length (accountsChanged e))
    (ethereum (connectTimes 3 [grantsOne; grantsOne; grantsOne]
                 (mounted (Some freshEthereum))))
  = Some 3 /\
  ethereum (settleRendered 3 grantsOne
              (rendered (runSync connectWallet)
                 (rendered (runSync handleDisconnect)
                    (connectTimes 3 [grantsOne; grantsOne; grantsOne]
                       (mounted (Some freshEthereum))))))
  = Some {| selectedAddress := None;
            accountsChanged := [ConnAccountsChanged];
            chainChanged :=
              [HandleChainChanged
                 (Some "0xABCD00000000000000000000000000000000EF01");
               ConnChainChanged] |}.
Proof.
  split; [reflexivity|].
  exact (connect_after_disconnect_resets_listeners 3 grantsOne
           (connectTimes 3 [grantsOne; grantsOne; grantsOne]
              (mounted (Some freshEthereum)))
           {| selectedAddress := None;
              accountsChanged := repeat ConnAccountsChanged 3;
              chainChanged := repeat ConnChainChanged 3 |}
           "0xABCD00000000000000000000000000000000EF01" []
           (le_n 3) eq_refl eq_refl eq_refl).
Defined.


